(** * The Telegram alert backend of Bugsink
      (alerts/service_backends/telegram.py)

    A shallow embedding of the delivery executor, of the two writers of the
    failure snapshot kept on a [MessagingServiceConfig] row, and of the two
    task entry points, together with the properties of the specification
    that concern them.

    Conventions of the embedding.
    - A Python [str] is a [string]; one element is one character, so that
      [len] is [String.length] and a slice is a prefix.
    - Python integers are [Z].
    - The database is a finite map from primary keys to rows; the clock, the
      remote HTTP endpoint, the settings and the Django template filter are
      an explicit environment.
    - Code that can raise returns an [outcome]; code that also touches the
      database or the network threads a [World] through a small state and
      exception monad.  Only instances of Python's [Exception] are modelled
      as raised values.
    - The code is read twice: first with [config.save()] and the JSON
      decoder at their best, then, in [Fallible], with a database that can
      refuse a row and a decoder that can raise. *)

From Stdlib Require Import ZArith String Ascii List Lia Bool.
From stdpp Require Import base option gmap strings pretty.

Open Scope string_scope.
Open Scope Z_scope.

(* stdpp blocks the unfolding of string concatenation; the proofs below
   compute with it. *)
#[local] Arguments String.append : simpl nomatch.
#[local] Set Warnings "-register-all".

(** ** Python strings *)

Module PyStr.

(** The line feed, written "\n" in the source. *)
Definition LF : string := String "010"%char "".

(** The first [n] characters of [s] (all of [s] when it is shorter). *)
Fixpoint take (n : nat) (s : string) : string :=
  match n, s with
  | S n', String c s' => String c (take n' s')
  | _, _ => ""
  end.

(** [s[:k]] with Python's reading of a negative bound, which counts from
    the end of the string. *)
Definition slice_to (s : string) (k : Z) : string :=
  let len := Z.of_nat (String.length s) in
  take (Z.to_nat (if k <? 0 then Z.max 0 (len + k) else k)) s.

(** ["sep".join(parts)] *)
Fixpoint join (sep : string) (parts : list string) : string :=
  match parts with
  | [] => ""
  | [p] => p
  | p :: rest => p +:+ sep +:+ join sep rest
  end.

(** [s.startswith(p)] *)
Fixpoint startswith (s p : string) : bool :=
  match p, s with
  | "", _ => true
  | String a p', String b s' => Ascii.eqb a b && startswith s' p'
  | String _ _, "" => false
  end.

(** [sub in s] *)
Fixpoint contains (s sub : string) : bool :=
  startswith s sub ||
  match s with
  | "" => false
  | String _ s' => contains s' sub
  end.

(** [s.split("\n")]: the lines of [s], cut at every character [sep]. *)
Fixpoint split_at (sep : ascii) (s : string) : list string :=
  match s with
  | "" => [""]
  | String c s' =>
      if Ascii.eqb c sep then "" :: split_at sep s'
      else match split_at sep s' with
           | [] => [String c ""]
           | l :: ls => String c l :: ls
           end
  end.

Definition lines (s : string) : list string := split_at "010"%char s.

End PyStr.

(** ** The message composer *)

(** [_truncate_message(text, max_length=4000)] *)
Definition _truncate_message (text : string) (max_length : Z) : string :=
  if Z.of_nat (String.length text) <=? max_length then text
  else PyStr.slice_to text (max_length - 3) +:+ "...".

(** The default of the keyword argument, used by both callers. *)
Definition max_length_default : Z := 4000.

(** ** Decoded JSON and the Python runtime *)

(** The values [json.loads] produces: [None], [bool], [int], [float], [str],
    [list] and [dict].  A [dict] is kept as the members of the document in
    the order they were read; a later member overrides an earlier one with
    the same key, see [dict_get].  A float is kept as its literal: the code
    never looks inside one. *)
Inductive json : Type :=
| JNull
| JBool (b : bool)
| JInt (n : Z)
| JFloat (literal : string)
| JString (s : string)
| JArray (items : list json)
| JObject (members : list (string * json)).

(** [d.get(key, default)] on a decoded object. *)
Fixpoint dict_get (members : list (string * json)) (key : string) (default : json) : json :=
  match members with
  | [] => default
  | (k, v) :: rest => dict_get rest key (if String.eqb k key then v else default)
  end.

(** [type(v).__name__] *)
Definition type_name (v : json) : string :=
  match v with
  | JNull => "NoneType"
  | JBool _ => "bool"
  | JInt _ => "int"
  | JFloat _ => "float"
  | JString _ => "str"
  | JArray _ => "list"
  | JObject _ => "dict"
  end.

(** [v is False] *)
Definition is_False (v : json) : bool :=
  match v with
  | JBool false => true
  | _ => false
  end.

(** What the code takes from the standard library: the JSON decoder, which
    answers [None] where [json.loads] raises [ValueError], and the builtin
    [str] on a decoded value, of which the code relies on one fact only: the
    [str] of a string is that string. *)
Class Python : Type := {
  json_loads : string -> option json;
  py_str : json -> string;
  py_str_JString : forall s : string, py_str (JString s) = s
}.

(** ** The HTTP client *)

(** [requests.Response], the attributes the backend and [raise_for_status]
    read. *)
Record Response : Type := {
  status_code : Z;
  reason : string;
  url : string;
  text : string
}.

(** The exceptions the backend tells apart.  [str_of] is [str(e)] and
    [class_name] is [type(e).__name__]. *)
Inductive exn : Type :=
| ConfigDoesNotExist                 (* MessagingServiceConfig.DoesNotExist *)
| IssueDoesNotExist                  (* Issue.DoesNotExist *)
| AttributeError (msg : string)
| HTTPError (msg : string) (response : option Response)
    (* requests.HTTPError *)
| RequestException (name msg : string) (response : option Response)
    (* any other subclass of requests.RequestException: Timeout,
       ConnectionError, TooManyRedirects, ... *)
| OtherException (name msg : string)
    (* any other subclass of Exception *).

Definition class_name (e : exn) : string :=
  match e with
  | ConfigDoesNotExist | IssueDoesNotExist => "DoesNotExist"
  | AttributeError _ => "AttributeError"
  | HTTPError _ _ => "HTTPError"
  | RequestException name _ _ => name
  | OtherException name _ => name
  end.

Definition str_of (e : exn) : string :=
  match e with
  | ConfigDoesNotExist => "MessagingServiceConfig matching query does not exist."
  | IssueDoesNotExist => "Issue matching query does not exist."
  | AttributeError msg => msg
  | HTTPError msg _ => msg
  | RequestException _ msg _ => msg
  | OtherException _ msg => msg
  end.

(** [isinstance(e, requests.RequestException)] *)
Definition is_RequestException (e : exn) : bool :=
  match e with
  | HTTPError _ _ | RequestException _ _ _ => true
  | _ => false
  end.

(** [getattr(e, "response", None)] on a [RequestException]. *)
Definition response_of (e : exn) : option Response :=
  match e with
  | HTTPError _ r | RequestException _ _ r => r
  | _ => None
  end.

(** A call either returns or raises. *)
Inductive outcome (A : Type) : Type :=
| Returns (a : A)
| Raises (e : exn).
Arguments Returns {A} a.
Arguments Raises {A} e.

(** [Response.raise_for_status] of the requests library: it raises for the
    client and server error classes only, with the status, the reason phrase
    of the status line and the URL in the message, and returns for every
    other status. *)
Definition raise_for_status (r : Response) : outcome unit :=
  if (400 <=? status_code r) && (status_code r <? 500) then
    Raises (HTTPError (pretty (status_code r) +:+ " Client Error: " +:+ reason r
                         +:+ " for url: " +:+ url r) (Some r))
  else if (500 <=? status_code r) && (status_code r <? 600) then
    Raises (HTTPError (pretty (status_code r) +:+ " Server Error: " +:+ reason r
                         +:+ " for url: " +:+ url r) (Some r))
  else Returns tt.

(** [Response.json()] under the [except ValueError] of the caller: the
    decoded body, or [None] when the body is not JSON.  The body is decoded
    from [text], as [json.loads(response.text)] does in the failure writer.
    This is the call on a body the decoder decodes or rejects;
    [Fallible.loads] is the call that can raise something else. *)
Definition response_json `{Python} (r : Response) : json :=
  match json_loads (text r) with
  | Some v => v
  | None => JNull
  end.

(** The attribute lookup [v.get]: only a [dict] has one. *)
Definition getattr_get (v : json) : outcome (string -> json -> json) :=
  match v with
  | JObject members => Returns (dict_get members)
  | _ => Raises (AttributeError ("'" +:+ type_name v +:+ "' object has no attribute 'get'"))
  end.

(** One POST as the remote end sees it, and how it ends. *)
Record Request : Type := {
  req_url : string;
  req_json : list (string * json);
  req_timeout : Z
}.

Inductive PostOutcome : Type :=
| PostReturns (r : Response)
| PostRaises (e : exn).

(** ** Rows *)

(** Modelled from the spec: the model class [MessagingServiceConfig] is
    declared in alerts/models.py; its six failure-tracking fields, "all
    nullable", are the ones section 3 lists and the writers below assign.
    The primary key is the key of the table; [display_name] and [config]
    stand for the columns the backend never writes. *)
Record MessagingServiceConfig : Type := {
  display_name : string;
  config : string;
  last_failure_timestamp : option Z;
  last_failure_status_code : option Z;
  last_failure_response_text : option string;
  last_failure_is_json : option bool;
  last_failure_error_type : option string;
  last_failure_error_message : option string
}.

(** [issues.models.Issue], as far as the alert text reads it: [title()],
    [get_absolute_url()] and [project.name]. *)
Record Issue : Type := {
  issue_title : string;
  issue_absolute_url : string;
  issue_project_name : string
}.

(** Attribute assignments on a loaded row. *)
Definition set_timestamp (v : option Z) (c : MessagingServiceConfig) :=
  {| display_name := display_name c; config := config c;
     last_failure_timestamp := v;
     last_failure_status_code := last_failure_status_code c;
     last_failure_response_text := last_failure_response_text c;
     last_failure_is_json := last_failure_is_json c;
     last_failure_error_type := last_failure_error_type c;
     last_failure_error_message := last_failure_error_message c |}.

Definition set_status_code (v : option Z) (c : MessagingServiceConfig) :=
  {| display_name := display_name c; config := config c;
     last_failure_timestamp := last_failure_timestamp c;
     last_failure_status_code := v;
     last_failure_response_text := last_failure_response_text c;
     last_failure_is_json := last_failure_is_json c;
     last_failure_error_type := last_failure_error_type c;
     last_failure_error_message := last_failure_error_message c |}.

Definition set_response_text (v : option string) (c : MessagingServiceConfig) :=
  {| display_name := display_name c; config := config c;
     last_failure_timestamp := last_failure_timestamp c;
     last_failure_status_code := last_failure_status_code c;
     last_failure_response_text := v;
     last_failure_is_json := last_failure_is_json c;
     last_failure_error_type := last_failure_error_type c;
     last_failure_error_message := last_failure_error_message c |}.

Definition set_is_json (v : option bool) (c : MessagingServiceConfig) :=
  {| display_name := display_name c; config := config c;
     last_failure_timestamp := last_failure_timestamp c;
     last_failure_status_code := last_failure_status_code c;
     last_failure_response_text := last_failure_response_text c;
     last_failure_is_json := v;
     last_failure_error_type := last_failure_error_type c;
     last_failure_error_message := last_failure_error_message c |}.

Definition set_error_type (v : option string) (c : MessagingServiceConfig) :=
  {| display_name := display_name c; config := config c;
     last_failure_timestamp := last_failure_timestamp c;
     last_failure_status_code := last_failure_status_code c;
     last_failure_response_text := last_failure_response_text c;
     last_failure_is_json := last_failure_is_json c;
     last_failure_error_type := v;
     last_failure_error_message := last_failure_error_message c |}.

Definition set_error_message (v : option string) (c : MessagingServiceConfig) :=
  {| display_name := display_name c; config := config c;
     last_failure_timestamp := last_failure_timestamp c;
     last_failure_status_code := last_failure_status_code c;
     last_failure_response_text := last_failure_response_text c;
     last_failure_is_json := last_failure_is_json c;
     last_failure_error_type := last_failure_error_type c;
     last_failure_error_message := v |}.

(** Modelled from the spec: [MessagingServiceConfig.clear_failure_status],
    defined in alerts/models.py, which "clears all failure fields
    together": each of the six failure-tracking attributes is set to
    [None]. *)
Definition clear_failure_status (c : MessagingServiceConfig) : MessagingServiceConfig :=
  set_error_message None
    (set_error_type None
       (set_is_json None
          (set_response_text None
             (set_status_code None
                (set_timestamp None c))))).

(** ** The world and the task monad *)

(** What a task can change: the two tables, and the list of POSTs that went
    out, oldest first. *)
Record World : Type := {
  configs : gmap Z MessagingServiceConfig;
  issues : gmap Z Issue;
  outbox : list Request
}.

(** What a task reads and cannot change: the clock ([timezone.now()]), the
    remote end answering a POST, the [BASE_URL] setting and Django's
    [truncatechars] filter. *)
Record Env : Type := {
  now : Z;
  remote : Request -> PostOutcome;
  BASE_URL : string;
  truncatechars : string -> Z -> string
}.

Definition Task (A : Type) : Type := World -> outcome A * World.

Definition ret {A : Type} (a : A) : Task A := fun w => (Returns a, w).

Definition raise {A : Type} (e : exn) : Task A := fun w => (Raises e, w).

Definition bind {A B : Type} (m : Task A) (k : A -> Task B) : Task B :=
  fun w =>
    match m w with
    | (Returns a, w') => k a w'
    | (Raises e, w') => (Raises e, w')
    end.

(** A call that raises but touches nothing. *)
Definition lift {A : Type} (o : outcome A) : Task A := fun w => (o, w).

(** [try: body except Exception as e: handler(e)]; what [body] did before
    raising stays done. *)
Definition try_except {A : Type} (body : Task A) (handler : exn -> Task A) : Task A :=
  fun w =>
    match body w with
    | (Returns a, w') => (Returns a, w')
    | (Raises e, w') => handler e w'
    end.

Declare Scope task_scope.
Delimit Scope task_scope with task.
Notation "x <- m ;; k" := (bind m (fun x => k))
  (at level 100, m at next level, right associativity) : task_scope.
Notation "m ;; k" := (bind m (fun _ => k))
  (at level 100, right associativity) : task_scope.
Open Scope task_scope.

(** Modelled from the spec: [bugsink.transaction.immediate_atomic], the
    "scoped atomic transaction" in which both writers run: the writes of the
    block are committed when it returns and undone when it raises. *)
Definition immediate_atomic {A : Type} (body : Task A) : Task A :=
  fun w =>
    match body w with
    | (Returns a, w') => (Returns a, w')
    | (Raises e, w') =>
        (Raises e, {| configs := configs w; issues := issues w; outbox := outbox w' |})
    end.

(** [MessagingServiceConfig.objects.get(id=...)] *)
Definition config_objects_get (id : Z) : Task MessagingServiceConfig :=
  fun w =>
    match configs w !! id with
    | Some c => (Returns c, w)
    | None => (Raises ConfigDoesNotExist, w)
    end.

(** [config.save()] on a row loaded under the key [id], on a database that
    accepts the row; [Fallible.save] is the call on one that can refuse
    it. *)
Definition config_save (id : Z) (c : MessagingServiceConfig) : Task unit :=
  fun w =>
    (Returns tt,
     {| configs := <[id := c]> (configs w); issues := issues w; outbox := outbox w |}).

(** [Issue.objects.get(id=...)] *)
Definition issue_objects_get (id : Z) : Task Issue :=
  fun w =>
    match issues w !! id with
    | Some i => (Returns i, w)
    | None => (Raises IssueDoesNotExist, w)
    end.

(** ** The delivery state store, the executor and the two tasks *)

Section Backend.

Context `{Python}.
Variable env : Env.

(** [requests.post(url, json=payload, timeout=...)] *)
Definition requests_post (url : string) (payload : list (string * json)) (timeout : Z)
  : Task Response :=
  fun w =>
    let request := {| req_url := url; req_json := payload; req_timeout := timeout |} in
    let w' := {| configs := configs w; issues := issues w;
                 outbox := outbox w ++ [request] |} in
    match remote env request with
    | PostReturns r => (Returns r, w')
    | PostRaises e => (Raises e, w')
    end.

(** [_store_failure_info(service_config_id, exception, response=None)] *)
Definition _store_failure_info (service_config_id : Z) (exception : exn)
    (response : option Response) : Task unit :=
  immediate_atomic
    (try_except
       (config <- config_objects_get service_config_id ;;
        let config := set_timestamp (Some (now env)) config in
        let config := set_error_type (Some (class_name exception)) config in
        let config := set_error_message (Some (str_of exception)) config in
        let config :=
          match response with
          | Some response =>
              let config := set_status_code (Some (status_code response)) config in
              let config :=
                set_response_text (Some (PyStr.slice_to (text response) 2000)) config in
              match json_loads (text response) with
              | Some _ => set_is_json (Some true) config
              | None => set_is_json (Some false) config
              end
          | None =>
              let config := set_status_code None config in
              let config := set_response_text None config in
              set_is_json None config
          end in
        config_save service_config_id config)
       (fun e => match e with
                 | ConfigDoesNotExist => ret tt
                 | _ => raise e
                 end)).

(** [_store_success_info(service_config_id)] *)
Definition _store_success_info (service_config_id : Z) : Task unit :=
  immediate_atomic
    (try_except
       (config <- config_objects_get service_config_id ;;
        let config := clear_failure_status config in
        config_save service_config_id config)
       (fun e => match e with
                 | ConfigDoesNotExist => ret tt
                 | _ => raise e
                 end)).

(** [_send_telegram_message(bot_token, payload, service_config_id)] *)
Definition _send_telegram_message (bot_token : string) (payload : list (string * json))
    (service_config_id : Z) : Task unit :=
  let url := "https://api.telegram.org/bot" +:+ bot_token +:+ "/sendMessage" in
  try_except
    (result <- requests_post url payload 5 ;;
     let response_data := response_json result in
     (if 400 <=? status_code result then lift (raise_for_status result) else ret tt) ;;
     (match response_data with
      | JNull => ret tt
      | _ =>
          get <- lift (getattr_get response_data) ;;
          if is_False (get "ok" JNull) then
            raise (HTTPError (py_str (get "description" (JString "Telegram API error")))
                     (Some result))
          else ret tt
      end) ;;
     _store_success_info service_config_id)
    (fun e =>
       if is_RequestException e then
         _store_failure_info service_config_id e (response_of e)
       else
         _store_failure_info service_config_id e None).

(** [telegram_backend_send_test_message(bot_token, chat_id, project_name,
    display_name, service_config_id)] *)
Definition telegram_backend_send_test_message (bot_token chat_id project_name
    display_name : string) (service_config_id : Z) : Task unit :=
  let lines :=
    [ "Test message by Bugsink to test the Telegram bot setup.";
      "Project: " +:+ project_name;
      "Message backend: " +:+ display_name ] in
  let payload :=
    [ ("chat_id", JString chat_id);
      ("text", JString (_truncate_message (PyStr.join PyStr.LF lines) max_length_default));
      ("disable_web_page_preview", JBool true) ] in
  _send_telegram_message bot_token payload service_config_id.

(** [telegram_backend_send_alert(bot_token, chat_id, issue_id,
    state_description, alert_article, alert_reason, service_config_id,
    unmute_reason=None)] *)
Definition telegram_backend_send_alert (bot_token chat_id : string) (issue_id : Z)
    (state_description alert_article alert_reason : string) (service_config_id : Z)
    (unmute_reason : option string) : Task unit :=
  issue <- issue_objects_get issue_id ;;
  let issue_url := BASE_URL env +:+ issue_absolute_url issue in
  let lines :=
    [ alert_reason +:+ " issue";
      "Issue: " +:+ truncatechars env (issue_title issue) 200;
      "Project: " +:+ issue_project_name issue;
      "URL: " +:+ issue_url ] in
  let lines :=
    (* [if unmute_reason:] holds for a string that is not empty *)
    match unmute_reason with
    | Some (String _ _ as unmute_reason) =>
        (lines ++ ["Unmute reason: " +:+ unmute_reason])%list
    | _ => lines
    end in
  let payload :=
    [ ("chat_id", JString chat_id);
      ("text", JString (_truncate_message (PyStr.join PyStr.LF lines) max_length_default));
      ("disable_web_page_preview", JBool true) ] in
  _send_telegram_message bot_token payload service_config_id.

End Backend.

(** ** A reference runtime

    An instance of [Python] to run the model on concrete responses: a decoder
    for the fragment of JSON without escapes in strings and without
    fractions or exponents in numbers, on which it agrees with [json.loads]
    (a later duplicate key wins through [dict_get]); text outside the
    fragment is refused.  The general statements below hold for every
    instance. *)

Module Reference.

Inductive token : Type :=
| TLBrace | TRBrace | TLBracket | TRBracket | TColon | TComma
| TNull | TTrue | TFalse
| TInt (n : Z)
| TStr (s : string).

Definition is_space (c : ascii) : bool :=
  let n := nat_of_ascii c in
  Nat.eqb n 32 || Nat.eqb n 9 || Nat.eqb n 10 || Nat.eqb n 13.

Definition digit_of (c : ascii) : option Z :=
  let n := Z.of_nat (nat_of_ascii c) in
  if (48 <=? n) && (n <=? 57) then Some (n - 48) else None.

(** The characters of a string literal up to its closing quote, and the text
    after it; a backslash or a control character leaves the fragment. *)
Fixpoint read_string (s : string) : option (string * string) :=
  match s with
  | "" => None
  | String c rest =>
      let n := nat_of_ascii c in
      if Nat.eqb n 34 then Some ("", rest)
      else if Nat.eqb n 92 || Nat.ltb n 32 then None
      else match read_string rest with
           | Some (str, rest') => Some (String c str, rest')
           | None => None
           end
  end.

(** The digits at the head of [s], read on top of [acc]. *)
Fixpoint read_digits (acc : Z) (s : string) : Z * string :=
  match s with
  | "" => (acc, "")
  | String c rest =>
      match digit_of c with
      | Some d => read_digits (10 * acc + d) rest
      | None => (acc, s)
      end
  end.

(** An integer literal without sign: one digit at least, and no zero in
    front of another digit. *)
Definition read_nat (s : string) : option (Z * string) :=
  match s with
  | "" => None
  | String c rest =>
      match digit_of c with
      | None => None
      | Some 0 =>
          match rest with
          | String c' _ =>
              match digit_of c' with
              | Some _ => None
              | None => Some (0, rest)
              end
          | "" => Some (0, rest)
          end
      | Some _ => Some (read_digits 0 s)
      end
  end.

Fixpoint drop (n : nat) (s : string) : string :=
  match n, s with
  | S n', String _ s' => drop n' s'
  | _, _ => s
  end.

Fixpoint tokenize (fuel : nat) (s : string) : option (list token) :=
  match fuel with
  | O => None
  | S fuel =>
      match s with
      | "" => Some []
      | String c rest =>
          let n := nat_of_ascii c in
          if is_space c then tokenize fuel rest
          else if Nat.eqb n 123 then cons TLBrace <$> tokenize fuel rest
          else if Nat.eqb n 125 then cons TRBrace <$> tokenize fuel rest
          else if Nat.eqb n 91 then cons TLBracket <$> tokenize fuel rest
          else if Nat.eqb n 93 then cons TRBracket <$> tokenize fuel rest
          else if Nat.eqb n 58 then cons TColon <$> tokenize fuel rest
          else if Nat.eqb n 44 then cons TComma <$> tokenize fuel rest
          else if Nat.eqb n 34 then
            match read_string rest with
            | Some (str, rest') => cons (TStr str) <$> tokenize fuel rest'
            | None => None
            end
          else if PyStr.startswith s "null" then cons TNull <$> tokenize fuel (drop 4 s)
          else if PyStr.startswith s "true" then cons TTrue <$> tokenize fuel (drop 4 s)
          else if PyStr.startswith s "false" then cons TFalse <$> tokenize fuel (drop 5 s)
          else if Nat.eqb n 45 then
            match read_nat rest with
            | Some (k, rest') => cons (TInt (- k)) <$> tokenize fuel rest'
            | None => None
            end
          else
            match read_nat s with
            | Some (k, rest') => cons (TInt k) <$> tokenize fuel rest'
            | None => None
            end
      end
  end.

(** One value at the head of the tokens, and the tokens after it. *)
Fixpoint parse_value (fuel : nat) (ts : list token) : option (json * list token) :=
  match fuel with
  | O => None
  | S fuel =>
      match ts with
      | TNull :: ts => Some (JNull, ts)
      | TTrue :: ts => Some (JBool true, ts)
      | TFalse :: ts => Some (JBool false, ts)
      | TInt n :: ts => Some (JInt n, ts)
      | TStr s :: ts => Some (JString s, ts)
      | TLBracket :: TRBracket :: ts => Some (JArray [], ts)
      | TLBracket :: ts =>
          match parse_items fuel ts with
          | Some (items, ts) => Some (JArray items, ts)
          | None => None
          end
      | TLBrace :: TRBrace :: ts => Some (JObject [], ts)
      | TLBrace :: ts =>
          match parse_members fuel ts with
          | Some (members, ts) => Some (JObject members, ts)
          | None => None
          end
      | _ => None
      end
  end
with parse_items (fuel : nat) (ts : list token) : option (list json * list token) :=
  match fuel with
  | O => None
  | S fuel =>
      match parse_value fuel ts with
      | Some (v, TComma :: ts) =>
          match parse_items fuel ts with
          | Some (vs, ts) => Some (v :: vs, ts)
          | None => None
          end
      | Some (v, TRBracket :: ts) => Some ([v], ts)
      | _ => None
      end
  end
with parse_members (fuel : nat) (ts : list token)
  : option (list (string * json) * list token) :=
  match fuel with
  | O => None
  | S fuel =>
      match ts with
      | TStr k :: TColon :: ts =>
          match parse_value fuel ts with
          | Some (v, TComma :: ts) =>
              match parse_members fuel ts with
              | Some (ms, ts) => Some ((k, v) :: ms, ts)
              | None => None
              end
          | Some (v, TRBrace :: ts) => Some ([(k, v)], ts)
          | _ => None
          end
      | _ => None
      end
  end.

Definition loads (s : string) : option json :=
  match tokenize (S (String.length s)) s with
  | Some ts =>
      match parse_value (S (List.length ts)) ts with
      | Some (v, []) => Some v
      | _ => None
      end
  | None => None
  end.

(** [str] on a decoded value: exact on strings, integers, booleans and
    [None]; a float shows as its literal and a container by its type name
    only. *)
Definition str (v : json) : string :=
  match v with
  | JNull => "None"
  | JBool true => "True"
  | JBool false => "False"
  | JInt n => pretty n
  | JFloat literal => literal
  | JString s => s
  | JArray _ => "<list>"
  | JObject _ => "<dict>"
  end.

#[export] Instance python : Python :=
  {| json_loads := loads; py_str := str; py_str_JString := fun s => eq_refl |}.

(** A double quote, and a string between double quotes. *)
Definition dquote : string := String "034"%char "".
Definition quoted (s : string) : string := dquote +:+ s +:+ dquote.

(** The JSON text of an object with the member [ok] and a description. *)
Definition body_not_ok (description : string) : string :=
  "{" +:+ quoted "ok" +:+ ": false, " +:+ quoted "description" +:+ ": "
      +:+ quoted description +:+ "}".

Definition body_ok : string := "{" +:+ quoted "ok" +:+ ": true}".

(** Objects whose member [ok] is not the boolean false, or is missing. *)
Definition body_ok_zero : string := "{" +:+ quoted "ok" +:+ ": 0}".
Definition body_no_ok : string := "{" +:+ quoted "result" +:+ ": []}".

End Reference.


(** ** Vocabulary of the statements *)

(** The world once [request] has gone out. *)
Definition sent (w : World) (request : Request) : World :=
  {| configs := configs w; issues := issues w; outbox := outbox w ++ [request] |}.

(** The world with the row [c] stored under [id]. *)
Definition stored (w : World) (id : Z) (c : MessagingServiceConfig) : World :=
  {| configs := <[id := c]> (configs w); issues := issues w; outbox := outbox w |}.

(** The POST [_send_telegram_message] makes. *)
Definition send_request (bot_token : string) (payload : list (string * json)) : Request :=
  {| req_url := "https://api.telegram.org/bot" +:+ bot_token +:+ "/sendMessage";
     req_json := payload;
     req_timeout := 5 |}.

(** The six failure-tracking fields of a row, in the order of the data
    model: timestamp, error type, error message, status code, response text,
    is-JSON flag. *)
Definition failure_fields (c : MessagingServiceConfig)
  : option Z * option string * option string * option Z * option string * option bool :=
  (last_failure_timestamp c, last_failure_error_type c, last_failure_error_message c,
   last_failure_status_code c, last_failure_response_text c, last_failure_is_json c).

Definition is_some {A : Type} (o : option A) : bool :=
  match o with
  | Some _ => true
  | None => false
  end.

Definition all_null (c : MessagingServiceConfig) : bool :=
  negb (is_some (last_failure_timestamp c))
  && negb (is_some (last_failure_error_type c))
  && negb (is_some (last_failure_error_message c))
  && negb (is_some (last_failure_status_code c))
  && negb (is_some (last_failure_response_text c))
  && negb (is_some (last_failure_is_json c)).

Definition all_populated (c : MessagingServiceConfig) : bool :=
  is_some (last_failure_timestamp c)
  && is_some (last_failure_error_type c)
  && is_some (last_failure_error_message c)
  && is_some (last_failure_status_code c)
  && is_some (last_failure_response_text c)
  && is_some (last_failure_is_json c).

(** The failure snapshot the code writes: the three fields that describe the
    error are set, and the three that describe the HTTP response are set
    together or null together. *)
Definition failure_snapshot (c : MessagingServiceConfig) : bool :=
  is_some (last_failure_timestamp c)
  && is_some (last_failure_error_type c)
  && is_some (last_failure_error_message c)
  && (is_some (last_failure_status_code c)
      && is_some (last_failure_response_text c)
      && is_some (last_failure_is_json c)
      || negb (is_some (last_failure_status_code c))
         && negb (is_some (last_failure_response_text c))
         && negb (is_some (last_failure_is_json c))).

(** The row a recorded failure leaves, in closed form. *)
Definition recorded_failure `{Python} (env : Env) (e : exn) (response : option Response)
    (c : MessagingServiceConfig) : MessagingServiceConfig :=
  {| display_name := display_name c;
     config := config c;
     last_failure_timestamp := Some (now env);
     last_failure_status_code := status_code <$> response;
     last_failure_response_text := (fun r => PyStr.slice_to (text r) 2000) <$> response;
     last_failure_is_json := (fun r => is_some (json_loads (text r))) <$> response;
     last_failure_error_type := Some (class_name e);
     last_failure_error_message := Some (str_of e) |}.

(** [key in d] on a decoded object. *)
Definition has_key (members : list (string * json)) (key : string) : bool :=
  existsb (fun kv => String.eqb (fst kv) key) members.

(** The message of the [HTTPError] that [raise_for_status] builds. *)
Definition http_error_message (r : Response) : string :=
  pretty (status_code r)
  +:+ (if status_code r <? 500 then " Client Error: " else " Server Error: ")
  +:+ reason r +:+ " for url: " +:+ url r.

(** ** Concrete worlds *)

Module Demo.

(** A channel that never failed. *)
Definition healthy : MessagingServiceConfig :=
  {| display_name := "Prod Alerts";
     config := "{}";
     last_failure_timestamp := None;
     last_failure_status_code := None;
     last_failure_response_text := None;
     last_failure_is_json := None;
     last_failure_error_type := None;
     last_failure_error_message := None |}.

(** A channel whose last attempt timed out. *)
Definition broken : MessagingServiceConfig :=
  {| display_name := "Prod Alerts";
     config := "{}";
     last_failure_timestamp := Some 1600000000;
     last_failure_status_code := None;
     last_failure_response_text := None;
     last_failure_is_json := None;
     last_failure_error_type := Some "ReadTimeout";
     last_failure_error_message := Some "Read timed out. (read timeout=5)" |}.

(** One channel under the key 1, no issue, nothing sent yet. *)
Definition world : World :=
  {| configs := {[ 1 := healthy ]}; issues := ∅; outbox := [] |}.

(** The same with the channel in the failed state. *)
Definition broken_world : World :=
  {| configs := {[ 1 := broken ]}; issues := ∅; outbox := [] |}.

(** No channel at all. *)
Definition empty_world : World :=
  {| configs := ∅; issues := ∅; outbox := [] |}.

(** An environment whose remote end gives the same answer to every POST.
    The filter cuts to the first [n] characters. *)
Definition env (answer : PostOutcome) : Env :=
  {| now := 1700000000;
     remote := fun _ => answer;
     BASE_URL := "https://bugsink.example.org";
     truncatechars := fun s n => PyStr.slice_to s (Z.max 0 n) |}.

Definition response (status : Z) (phrase body : string) : Response :=
  {| status_code := status;
     reason := phrase;
     url := "https://api.telegram.org/botT/sendMessage";
     text := body |}.

(** [requests.exceptions.ReadTimeout] after the five seconds. *)
Definition read_timeout : exn :=
  RequestException "ReadTimeout" "Read timed out. (read timeout=5)" None.

Definition payload : list (string * json) :=
  [ ("chat_id", JString "@ops"); ("text", JString "hello");
    ("disable_web_page_preview", JBool true) ].

(** A text of [n] characters. *)
Fixpoint filler (n : nat) : string :=
  match n with
  | O => ""
  | S n' => String "x"%char (filler n')
  end.

End Demo.

(** ** The backend facade *)

(** The object [TelegramBackend] wraps: the row, its primary key
    ([service_config.id]) and the name of its project
    ([service_config.project.name]). *)
Record TelegramBackend : Type := {
  backend_id : Z;
  service_config : MessagingServiceConfig;
  backend_project_name : string
}.

(** Modelled from the spec: [.delay(...)] of the [shared_task] decorator
    (snappea/decorators.py), which "enqueues" a task "with plain parameters"
    and "returns immediately": a call handed to the queue is the task and
    its arguments.  The two values read from the configuration are passed as
    they were decoded; the keyword arguments of [send_alert] are passed
    through. *)
Inductive delayed : Type :=
| DelayTestMessage (bot_token chat_id : json) (project_name display_name : string)
    (service_config_id : Z)
| DelayAlert (bot_token chat_id : json) (issue_id : Z)
    (state_description alert_article alert_reason : string) (service_config_id : Z)
    (kwargs : list (string * json)).

Definition outcome_bind {A B : Type} (o : outcome A) (k : A -> outcome B) : outcome B :=
  match o with
  | Returns a => k a
  | Raises e => Raises e
  end.

Section Facade.

Context `{Python}.

(** The texts of two library errors, which the code does not fix: [str] of
    the [JSONDecodeError] for a text that is not JSON, and [str] of the
    [TypeError] for a subscript on a value that is not a [dict]. *)
Variable decode_error : string -> string.
Variable subscript_error : json -> string.

(** [json.loads(s)], raising. *)
Definition loads_or_raise (s : string) : outcome json :=
  match json_loads s with
  | Some v => Returns v
  | None => Raises (OtherException "JSONDecodeError" (decode_error s))
  end.

(** [v[key]] with a string key: the value of a [dict] that has the key, a
    [KeyError] showing the key for a [dict] that has not, a [TypeError] on
    every other value. *)
Definition subscript (v : json) (key : string) : outcome json :=
  match v with
  | JObject members =>
      if has_key members key then Returns (dict_get members key JNull)
      else Raises (OtherException "KeyError" ("'" +:+ key +:+ "'"))
  | _ => Raises (OtherException "TypeError" (subscript_error v))
  end.

(** [TelegramBackend.send_test_message(self)] *)
Definition send_test_message (self : TelegramBackend) : outcome delayed :=
  outcome_bind (loads_or_raise (config (service_config self))) (fun config =>
  outcome_bind (subscript config "bot_token") (fun bot_token =>
  outcome_bind (subscript config "chat_id") (fun chat_id =>
  Returns (DelayTestMessage bot_token chat_id
             (backend_project_name self)
             (display_name (service_config self))
             (backend_id self))))).

(** [TelegramBackend.send_alert(self, issue_id, state_description,
    alert_article, alert_reason, **kwargs)] *)
Definition send_alert (self : TelegramBackend) (issue_id : Z)
    (state_description alert_article alert_reason : string)
    (kwargs : list (string * json)) : outcome delayed :=
  outcome_bind (loads_or_raise (config (service_config self))) (fun config =>
  outcome_bind (subscript config "bot_token") (fun bot_token =>
  outcome_bind (subscript config "chat_id") (fun chat_id =>
  Returns (DelayAlert bot_token chat_id issue_id state_description alert_article
             alert_reason (backend_id self) kwargs)))).

End Facade.

(** ** More vocabulary and concrete worlds *)

(** [sep not in s] for a one-character [sep]. *)
Fixpoint lacks (sep : ascii) (s : string) : bool :=
  match s with
  | "" => true
  | String c s' => negb (Ascii.eqb c sep) && lacks sep s'
  end.

(** The sentence that opens every test message. *)
Definition test_sentence : string :=
  "Test message by Bugsink to test the Telegram bot setup.".

(** The value under [key] of a JSON payload, when it is a string. *)
Definition payload_text (payload : list (string * json)) (key : string) : option string :=
  match dict_get payload key JNull with
  | JString s => Some s
  | _ => None
  end.

Module Demo2.

Definition issue : Issue :=
  {| issue_title := "ValueError: bad input";
     issue_absolute_url := "/issues/issue/7/";
     issue_project_name := "Acme" |}.

(** The demo world with one issue under the key 7 and a second channel. *)
Definition world : World :=
  {| configs := {[ 1 := Demo.healthy; 2 := Demo.broken ]};
     issues := {[ 7 := issue ]};
     outbox := [] |}.


(** A channel row whose configuration holds both keys. *)
Definition configured : MessagingServiceConfig :=
  {| display_name := "Prod Alerts";
     config := "{" +:+ Reference.quoted "bot_token" +:+ ": " +:+ Reference.quoted "T"
               +:+ ", " +:+ Reference.quoted "chat_id" +:+ ": " +:+ Reference.quoted "@ops"
               +:+ "}";
     last_failure_timestamp := None;
     last_failure_status_code := None;
     last_failure_response_text := None;
     last_failure_is_json := None;
     last_failure_error_type := None;
     last_failure_error_message := None |}.

Definition backend : TelegramBackend :=
  {| backend_id := 1; service_config := configured; backend_project_name := "Acme" |}.

End Demo2.

(** ** The code on a database and a decoder that can fail

    The definitions above take the two library calls that can fail for
    reasons of their own at their best: [config.save()] stores the row and
    the JSON decoder either decodes the text or rejects it with
    [ValueError].  Here both can raise: the database can refuse a row (the
    driver raises, as it does with [UnicodeEncodeError] for a text it cannot
    encode), and the decoder can raise an exception that is not a
    [ValueError] (as it does with [RecursionError] for a text nested too
    deeply). *)

(** What the two calls raise, if anything: [save_raises id row] is the
    exception of [config.save()] for that row, [decoder_raises text] the
    exception of [json.loads] and of [Response.json()] on that text that is
    not a [ValueError]. *)
Record Faults : Type := {
  save_raises : Z -> MessagingServiceConfig -> option exn;
  decoder_raises : string -> option exn
}.

Definition no_faults : Faults :=
  {| save_raises := fun _ _ => None; decoder_raises := fun _ => None |}.

Module Fallible.

Section Backend.

Context `{Python}.
Variable env : Env.
Variable faults : Faults.

(** [config.save()] on a row loaded under the key [id]. *)
Definition save (id : Z) (c : MessagingServiceConfig) : Task unit :=
  fun w =>
    match save_raises faults id c with
    | Some e => (Raises e, w)
    | None => config_save id c w
    end.

(** [json.loads(s)], and [Response.json()] on a response with the text
    [s]: the decoded value, [None] for the [ValueError] of a text that is not
    JSON, or another exception. *)
Definition loads (s : string) : outcome (option json) :=
  match decoder_raises faults s with
  | Some e => Raises e
  | None => Returns (json_loads s)
  end.

(** [_store_failure_info(service_config_id, exception, response=None)] *)
Definition _store_failure_info (service_config_id : Z) (exception : exn)
    (response : option Response) : Task unit :=
  immediate_atomic
    (try_except
       (config <- config_objects_get service_config_id ;;
        let config := set_timestamp (Some (now env)) config in
        let config := set_error_type (Some (class_name exception)) config in
        let config := set_error_message (Some (str_of exception)) config in
        config <-
          match response with
          | Some response =>
              let config := set_status_code (Some (status_code response)) config in
              let config :=
                set_response_text (Some (PyStr.slice_to (text response) 2000)) config in
              decoded <- lift (loads (text response)) ;;
              match decoded with
              | Some _ => ret (set_is_json (Some true) config)
              | None => ret (set_is_json (Some false) config)
              end
          | None =>
              let config := set_status_code None config in
              let config := set_response_text None config in
              ret (set_is_json None config)
          end ;;
        save service_config_id config)
       (fun e => match e with
                 | ConfigDoesNotExist => ret tt
                 | _ => raise e
                 end)).

(** [_store_success_info(service_config_id)] *)
Definition _store_success_info (service_config_id : Z) : Task unit :=
  immediate_atomic
    (try_except
       (config <- config_objects_get service_config_id ;;
        let config := clear_failure_status config in
        save service_config_id config)
       (fun e => match e with
                 | ConfigDoesNotExist => ret tt
                 | _ => raise e
                 end)).

(** [_send_telegram_message(bot_token, payload, service_config_id)] *)
Definition _send_telegram_message (bot_token : string) (payload : list (string * json))
    (service_config_id : Z) : Task unit :=
  let url := "https://api.telegram.org/bot" +:+ bot_token +:+ "/sendMessage" in
  try_except
    (result <- requests_post env url payload 5 ;;
     decoded <- lift (loads (text result)) ;;
     let response_data :=
       match decoded with
       | Some v => v
       | None => JNull
       end in
     (if 400 <=? status_code result then lift (raise_for_status result) else ret tt) ;;
     (match response_data with
      | JNull => ret tt
      | _ =>
          get <- lift (getattr_get response_data) ;;
          if is_False (get "ok" JNull) then
            raise (HTTPError (py_str (get "description" (JString "Telegram API error")))
                     (Some result))
          else ret tt
      end) ;;
     _store_success_info service_config_id)
    (fun e =>
       if is_RequestException e then
         _store_failure_info service_config_id e (response_of e)
       else
         _store_failure_info service_config_id e None).

(** [telegram_backend_send_test_message(bot_token, chat_id, project_name,
    display_name, service_config_id)] *)
Definition telegram_backend_send_test_message (bot_token chat_id project_name
    display_name : string) (service_config_id : Z) : Task unit :=
  let lines :=
    [ "Test message by Bugsink to test the Telegram bot setup.";
      "Project: " +:+ project_name;
      "Message backend: " +:+ display_name ] in
  let payload :=
    [ ("chat_id", JString chat_id);
      ("text", JString (_truncate_message (PyStr.join PyStr.LF lines) max_length_default));
      ("disable_web_page_preview", JBool true) ] in
  _send_telegram_message bot_token payload service_config_id.

(** [telegram_backend_send_alert(bot_token, chat_id, issue_id,
    state_description, alert_article, alert_reason, service_config_id,
    unmute_reason=None)] *)
Definition telegram_backend_send_alert (bot_token chat_id : string) (issue_id : Z)
    (state_description alert_article alert_reason : string) (service_config_id : Z)
    (unmute_reason : option string) : Task unit :=
  issue <- issue_objects_get issue_id ;;
  let issue_url := BASE_URL env +:+ issue_absolute_url issue in
  let lines :=
    [ alert_reason +:+ " issue";
      "Issue: " +:+ truncatechars env (issue_title issue) 200;
      "Project: " +:+ issue_project_name issue;
      "URL: " +:+ issue_url ] in
  let lines :=
    (* [if unmute_reason:] holds for a string that is not empty *)
    match unmute_reason with
    | Some (String _ _ as unmute_reason) =>
        (lines ++ ["Unmute reason: " +:+ unmute_reason])%list
    | _ => lines
    end in
  let payload :=
    [ ("chat_id", JString chat_id);
      ("text", JString (_truncate_message (PyStr.join PyStr.LF lines) max_length_default));
      ("disable_web_page_preview", JBool true) ] in
  _send_telegram_message bot_token payload service_config_id.

End Backend.

End Fallible.

(** The response the failure writer can take in: none, or one whose text the
    decoder decodes or rejects as not JSON. *)
Definition decoder_handles (faults : Faults) (response : option Response) : Prop :=
  match response with
  | Some r => decoder_raises faults (text r) = None
  | None => True
  end.

Module Demo3.

(** The character U+D800, a lone surrogate, which the alphabet of this
    model lacks: it is written as its JSON escape. *)
Definition lone_surrogate : string := "\ud800".

(** The body of an answer whose description is that character: on the wire
    it is the escape. *)
Definition body_surrogate : string := Reference.body_not_ok "\ud800".

(** The reference decoder, taught the one escape of [body_surrogate]. *)
Definition loads (s : string) : option json :=
  if String.eqb s body_surrogate then
    Some (JObject [("ok", JBool false); ("description", JString lone_surrogate)])
  else Reference.loads s.

Definition python : Python :=
  {| json_loads := loads; py_str := Reference.str; py_str_JString := fun s => eq_refl |}.

(** [n] opening brackets. *)
Fixpoint brackets (n : nat) : string :=
  match n with
  | O => ""
  | S n' => String "["%char (brackets n')
  end.

(** A body nested 5000 deep. *)
Definition body_nested : string := brackets (Z.to_nat 5000).

(** [s] opens with [n] brackets. *)
Fixpoint opens_with_brackets (n : nat) (s : string) : bool :=
  match n, s with
  | O, _ => true
  | S n', String c s' => Ascii.eqb c "["%char && opens_with_brackets n' s'
  | S _, "" => false
  end.

(** A database whose driver cannot encode a lone surrogate, and a decoder
    that runs out of stack on a text opening with 5000 brackets, as CPython's
    does at its default recursion limit. *)
Definition faults : Faults :=
  {| save_raises := fun _ row =>
       match last_failure_error_message row with
       | Some msg =>
           if PyStr.contains msg lone_surrogate then
             Some (OtherException "UnicodeEncodeError"
                     "'utf-8' codec can't encode character '\ud800' in position 0: surrogates not allowed")
           else None
       | None => None
       end;
     decoder_raises := fun s =>
       if opens_with_brackets (Z.to_nat 5000) s then
         Some (OtherException "RecursionError"
                 "maximum recursion depth exceeded while decoding a JSON array from a unicode string")
       else None |}.

End Demo3.

(** * Properties *)

(** ** Strings *)

Module PyStrFacts.
Import PyStr.

Lemma length_app (s t : string) :
  String.length (s +:+ t) = (String.length s + String.length t)%nat.
Proof. induction s as [|c s IH]; simpl; [reflexivity | now rewrite IH]. Qed.

Lemma length_take (n : nat) (s : string) :
  String.length (take n s) = Nat.min n (String.length s).
Proof.
  revert s; induction n as [|n IH]; intros [|c s]; simpl; try reflexivity.
  now rewrite IH.
Qed.

Lemma take_all (n : nat) (s : string) :
  (String.length s <= n)%nat -> take n s = s.
Proof.
  revert s; induction n as [|n IH]; intros [|c s]; simpl; intros Hle;
    try reflexivity; try lia.
  f_equal. apply IH. lia.
Qed.

Lemma slice_to_nonneg (s : string) (k : Z) :
  0 <= k -> slice_to s k = take (Z.to_nat k) s.
Proof.
  intros Hk. unfold slice_to.
  destruct (Z.ltb_spec k 0) as [Hlt|_]; [lia | reflexivity].
Qed.

Lemma length_slice_to (s : string) (k : Z) :
  0 <= k ->
  Z.of_nat (String.length (slice_to s k)) = Z.min k (Z.of_nat (String.length s)).
Proof.
  intros Hk. rewrite slice_to_nonneg by assumption. rewrite length_take. lia.
Qed.

Lemma startswith_app (p t : string) : startswith (p +:+ t) p = true.
Proof.
  induction p as [|c p IH]; simpl; [now destruct t|].
  now rewrite Ascii.eqb_refl, IH.
Qed.

Lemma contains_startswith (s p : string) :
  startswith s p = true -> contains s p = true.
Proof. intros H. destruct s; simpl in *; rewrite H; reflexivity. Qed.

Lemma contains_app (pre sub post : string) :
  contains (pre +:+ sub +:+ post) sub = true.
Proof.
  induction pre as [|c pre IH].
  - change (contains (sub +:+ post) sub = true).
    apply contains_startswith, startswith_app.
  - change (contains (String c (pre +:+ sub +:+ post)) sub = true).
    simpl. rewrite IH. apply orb_true_r.
Qed.

Lemma app_empty_r (s : string) : s +:+ "" = s.
Proof. induction s as [|c s IH]; simpl; [reflexivity | now rewrite IH]. Qed.

Lemma contains_refl (s : string) : contains s s = true.
Proof.
  pose proof (contains_app "" s "") as H.
  change (contains (s +:+ "") s = true) in H.
  now rewrite app_empty_r in H.
Qed.

Lemma app_assoc (s t u : string) : (s +:+ t) +:+ u = s +:+ t +:+ u.
Proof. induction s as [|c s IH]; simpl; [reflexivity | now rewrite IH]. Qed.

End PyStrFacts.

(** ** Decoded objects *)

Lemma dict_get_default (members : list (string * json)) (key : string) (d : json) :
  dict_get members key d
  = if has_key members key then dict_get members key JNull else d.
Proof.
  revert d. induction members as [|[k v] rest IH]; intros d; simpl; [reflexivity|].
  rewrite (IH (if String.eqb k key then v else d)).
  rewrite (IH (if String.eqb k key then v else JNull)).
  destruct (String.eqb k key), (has_key rest key); reflexivity.
Qed.

Lemma dict_get_missing (members : list (string * json)) (key : string) (d : json) :
  has_key members key = false -> dict_get members key d = d.
Proof. intros Hk. rewrite dict_get_default, Hk. reflexivity. Qed.

Lemma dict_get_present (members : list (string * json)) (key : string) (d v : json) :
  v <> JNull -> dict_get members key JNull = v -> dict_get members key d = v.
Proof.
  intros Hv Hget. rewrite dict_get_default.
  destruct (has_key members key) eqn:Hk; [exact Hget|].
  rewrite dict_get_missing in Hget by exact Hk. congruence.
Qed.

(** ** The composer *)

(** C2: for every text, the truncated message has at most 4000 characters;
    a text longer than 4000 characters becomes its first 3997 characters
    followed by three dots, 4000 characters in all; a text of at most 4000
    characters is returned as it is. *)
Theorem truncate_message_bounds (text : string) :
  let out := _truncate_message text max_length_default in
  let L := Z.of_nat (String.length text) in
  Z.of_nat (String.length out) <= 4000
  /\ (4000 < L ->
      out = PyStr.take (Z.to_nat (4000 - 3)) text +:+ "..."
      /\ Z.of_nat (String.length out) = 4000)
  /\ (L <= 4000 -> out = text).
Proof.
  unfold _truncate_message, max_length_default. cbv zeta.
  destruct (Z.leb_spec (Z.of_nat (String.length text)) 4000) as [Hle|Hgt].
  - split; [lia|]. split; [intros Hgt; lia | reflexivity].
  - assert (Hlen : Z.of_nat (String.length (PyStr.slice_to text (4000 - 3) +:+ "...")) = 4000).
    { rewrite PyStrFacts.length_app, Nat2Z.inj_add, PyStrFacts.length_slice_to by lia.
      simpl String.length. lia. }
    split; [lia|]. split; [intros _ | intros Hle; lia].
    split; [|exact Hlen].
    rewrite PyStrFacts.slice_to_nonneg by lia. reflexivity.
Qed.

Example truncate_4001 :
  let out := _truncate_message (Demo.filler 4001) max_length_default in
  String.length out = 4000%nat /\ PyStr.startswith (Reference.drop 3997 out) "..." = true.
Proof. vm_compute. split; reflexivity. Qed.

(** ** The delivery state store *)

Section StateStore.

Context `{Python}.
Variable env : Env.

Lemma store_failure_hit (id : Z) (e : exn) (response : option Response) (w : World)
    (c : MessagingServiceConfig) :
  configs w !! id = Some c ->
  _store_failure_info env id e response w
  = (Returns tt, stored w id (recorded_failure env e response c)).
Proof.
  intros Hc.
  unfold _store_failure_info, immediate_atomic, try_except, bind, config_objects_get,
    config_save.
  rewrite Hc. destruct response as [r|]; simpl.
  - unfold recorded_failure, stored; simpl.
    destruct (json_loads (text r)); reflexivity.
  - reflexivity.
Qed.

Lemma store_failure_miss (id : Z) (e : exn) (response : option Response) (w : World) :
  configs w !! id = None ->
  _store_failure_info env id e response w = (Returns tt, w).
Proof.
  intros Hc.
  unfold _store_failure_info, immediate_atomic, try_except, bind, config_objects_get.
  rewrite Hc. reflexivity.
Qed.

Lemma store_success_hit (id : Z) (w : World) (c : MessagingServiceConfig) :
  configs w !! id = Some c ->
  _store_success_info id w = (Returns tt, stored w id (clear_failure_status c)).
Proof.
  intros Hc.
  unfold _store_success_info, immediate_atomic, try_except, bind, config_objects_get,
    config_save.
  rewrite Hc. reflexivity.
Qed.

Lemma store_success_miss (id : Z) (w : World) :
  configs w !! id = None -> _store_success_info id w = (Returns tt, w).
Proof.
  intros Hc.
  unfold _store_success_info, immediate_atomic, try_except, bind, config_objects_get.
  rewrite Hc. reflexivity.
Qed.

(** On a database that takes the row the success writer returns. *)
Lemma store_success_returns (id : Z) (w : World) :
  fst (_store_success_info id w) = Returns tt.
Proof.
  destruct (configs w !! id) as [c|] eqn:Hc.
  - now rewrite (store_success_hit _ _ _ Hc).
  - now rewrite (store_success_miss _ _ Hc).
Qed.

Lemma failure_snapshot_recorded (e : exn) (response : option Response)
    (c : MessagingServiceConfig) :
  failure_snapshot (recorded_failure env e response c) = true.
Proof. destruct response; reflexivity. Qed.

(** C3, as amended: after an outcome write on an existing row, the six
    failure fields are those of this one attempt, whatever the row held
    before.  After [_store_success_info] all six are null.  After
    [_store_failure_info] the timestamp, the error type and the error message
    are set, and the status code, the response text and the JSON flag are set
    together when a response came with the error and null together when none
    did. *)
Theorem outcome_write_is_one_snapshot (id : Z) (e : exn) (response : option Response)
    (w : World) (c : MessagingServiceConfig) :
  configs w !! id = Some c ->
  (exists c',
      configs (snd (_store_failure_info env id e response w)) !! id = Some c'
      /\ failure_fields c'
         = (Some (now env), Some (class_name e), Some (str_of e),
            status_code <$> response,
            (fun r => PyStr.slice_to (text r) 2000) <$> response,
            (fun r => is_some (json_loads (text r))) <$> response)
      /\ failure_snapshot c' = true
      /\ all_null c' = false
      /\ all_populated c' = is_some response)
  /\ (exists c',
         configs (snd (_store_success_info id w)) !! id = Some c'
         /\ failure_fields c' = (None, None, None, None, None, None)
         /\ all_null c' = true).
Proof.
  intros Hc. split.
  - exists (recorded_failure env e response c).
    rewrite (store_failure_hit _ _ _ _ _ Hc). simpl.
    rewrite lookup_insert_eq.
    repeat split; destruct response; reflexivity.
  - exists (clear_failure_status c).
    rewrite (store_success_hit _ _ _ Hc). simpl.
    rewrite lookup_insert_eq. repeat split.
Qed.

(** C4: when no row has the given id, both writers return without raising
    and leave the world as it was: no row is created, none is changed. *)
Theorem outcome_write_lookup_miss (id : Z) (e : exn) (response : option Response)
    (w : World) :
  configs w !! id = None ->
  _store_failure_info env id e response w = (Returns tt, w)
  /\ _store_success_info id w = (Returns tt, w).
Proof.
  intros Hc. split.
  - exact (store_failure_miss _ _ _ _ Hc).
  - exact (store_success_miss _ _ Hc).
Qed.

(** C8: on an existing row, a recorded failure followed by a recorded
    success leaves each of the six failure fields null, and the other
    columns as they were. *)
Theorem success_after_failure_clears (id : Z) (e : exn) (response : option Response)
    (w : World) (c : MessagingServiceConfig) :
  configs w !! id = Some c ->
  let w1 := snd (_store_failure_info env id e response w) in
  let w2 := snd (_store_success_info id w1) in
  exists c',
    configs w2 !! id = Some c'
    /\ last_failure_timestamp c' = None
    /\ last_failure_error_type c' = None
    /\ last_failure_error_message c' = None
    /\ last_failure_status_code c' = None
    /\ last_failure_response_text c' = None
    /\ last_failure_is_json c' = None
    /\ display_name c' = display_name c
    /\ config c' = config c.
Proof.
  intros Hc w1 w2. subst w1 w2.
  rewrite (store_failure_hit _ _ _ _ _ Hc). cbn [snd].
  assert (Hc1 : configs (stored w id (recorded_failure env e response c)) !! id
                = Some (recorded_failure env e response c))
    by (simpl; apply lookup_insert_eq).
  rewrite (store_success_hit _ _ _ Hc1).
  exists (clear_failure_status (recorded_failure env e response c)).
  simpl. rewrite lookup_insert_eq. repeat split.
Qed.

End StateStore.

(** ** The delivery executor *)

Section Executor.

Context `{Python}.
Variable env : Env.

(** The status codes for which [raise_for_status] raises. *)
Lemma raise_for_status_error (r : Response) :
  400 <= status_code r < 600 ->
  raise_for_status r = Raises (HTTPError (http_error_message r) (Some r)).
Proof.
  intros [Hlo Hhi]. unfold raise_for_status, http_error_message.
  destruct (Z.leb_spec 400 (status_code r)) as [_|?]; [|lia].
  destruct (Z.ltb_spec (status_code r) 500) as [Hc|Hs]; simpl; [reflexivity|].
  destruct (Z.leb_spec 500 (status_code r)) as [_|?]; [|lia].
  destruct (Z.ltb_spec (status_code r) 600) as [_|?]; [|lia].
  reflexivity.
Qed.

Lemma raise_for_status_other (r : Response) :
  status_code r < 400 \/ 600 <= status_code r ->
  (if 400 <=? status_code r then raise_for_status r else Returns tt) = Returns tt.
Proof.
  intros Hr. unfold raise_for_status.
  destruct (Z.leb_spec 400 (status_code r)) as [Hge|Hlt]; [|reflexivity].
  destruct (Z.ltb_spec (status_code r) 500) as [?|_]; [lia|]. simpl.
  destruct (Z.leb_spec 500 (status_code r)) as [_|?]; [|lia].
  destruct (Z.ltb_spec (status_code r) 600) as [?|_]; [lia|]. reflexivity.
Qed.

(** Both handlers of the executor pass the response the exception carries:
    outside [RequestException] there is none. *)
Lemma handler_passes_response (id : Z) (e : exn) :
  (if is_RequestException e then _store_failure_info env id e (response_of e)
   else _store_failure_info env id e None)
  = _store_failure_info env id e (response_of e).
Proof. destruct e; reflexivity. Qed.

(* Runs the executor up to the answer of the remote end, which [Hpost]
   gives, and names the world in which the POST has gone out. *)
Ltac run_send Hpost w' :=
  unfold _send_telegram_message, try_except, bind, requests_post;
  match type of Hpost with
  | remote _ ?q = _ =>
      match goal with
      | |- context [remote env ?q'] => change q' with q
      end;
      rewrite Hpost;
      match goal with
      | |- context [Build_World (configs ?w) (issues ?w) (outbox ?w ++ [q])] =>
          change (Build_World (configs w) (issues w) (outbox w ++ [q])) with (sent w q);
          generalize (sent w q); intros w'
      end
  end.

(** The POST itself raised. *)
Lemma send_post_raised (bot_token : string) (payload : list (string * json)) (id : Z)
    (w : World) (e : exn) :
  remote env (send_request bot_token payload) = PostRaises e ->
  _send_telegram_message env bot_token payload id w
  = _store_failure_info env id e (response_of e) (sent w (send_request bot_token payload)).
Proof.
  intros Hpost. run_send Hpost w'.
  rewrite handler_passes_response. reflexivity.
Qed.

(** The remote end answered with a client or server error status. *)
Lemma send_http_error (bot_token : string) (payload : list (string * json)) (id : Z)
    (w : World) (r : Response) :
  remote env (send_request bot_token payload) = PostReturns r ->
  400 <= status_code r < 600 ->
  _send_telegram_message env bot_token payload id w
  = _store_failure_info env id (HTTPError (http_error_message r) (Some r)) (Some r)
      (sent w (send_request bot_token payload)).
Proof.
  intros Hpost Hr. run_send Hpost w'.
  destruct (Z.leb_spec 400 (status_code r)) as [_|?]; [|lia].
  unfold lift. rewrite (raise_for_status_error r Hr). reflexivity.
Qed.

(** What the executor does with an answer outside the error classes, by the
    decoded body. *)
Lemma send_classified (bot_token : string) (payload : list (string * json)) (id : Z)
    (w : World) (r : Response) :
  remote env (send_request bot_token payload) = PostReturns r ->
  status_code r < 400 \/ 600 <= status_code r ->
  let w' := sent w (send_request bot_token payload) in
  _send_telegram_message env bot_token payload id w
  = match response_json r with
    | JNull => _store_success_info id w'
    | JObject members =>
        if is_False (dict_get members "ok" JNull) then
          _store_failure_info env id
            (HTTPError (py_str (dict_get members "description"
                                  (JString "Telegram API error"))) (Some r))
            (Some r) w'
        else _store_success_info id w'
    | v =>
        _store_failure_info env id
          (AttributeError ("'" +:+ type_name v +:+ "' object has no attribute 'get'"))
          None w'
    end.
Proof.
  intros Hpost Hr w'. subst w'. run_send Hpost w'.
  pose proof (raise_for_status_other r Hr) as Hgate.
  pose proof (store_success_returns id w') as Hok.
  unfold lift, ret.
  destruct (400 <=? status_code r); [rewrite Hgate|]; clear Hgate.
  all: destruct (response_json r) as [| | | | | |members]; simpl; try reflexivity.
  all: try destruct (is_False (dict_get members "ok" JNull)); simpl; try reflexivity.
  all: destruct (_store_success_info id w') as [[[]|e] w'']; simpl in *;
         [reflexivity | discriminate].
Qed.

(** Every run of the executor ends in one of the two outcome writes, made
    after the POST went out. *)
Lemma send_ends_in_a_write (bot_token : string) (payload : list (string * json)) (id : Z)
    (w : World) :
  let w' := sent w (send_request bot_token payload) in
  let run := _send_telegram_message env bot_token payload id w in
  run = _store_success_info id w'
  \/ exists (e : exn) (response : option Response),
       run = _store_failure_info env id e response w'.
Proof.
  intros w' run. subst run.
  destruct (remote env (send_request bot_token payload)) as [r|e] eqn:Hpost.
  - destruct (Z_lt_ge_dec (status_code r) 400) as [Hlt|Hge].
    + rewrite (send_classified _ _ _ _ _ Hpost (or_introl Hlt)). fold w'.
      destruct (response_json r) as [| | | | | |members]; eauto.
      destruct (is_False _); eauto.
    + destruct (Z_lt_ge_dec (status_code r) 600) as [Hlt|Hge'].
      * right. do 2 eexists. apply (send_http_error _ _ _ _ _ Hpost). lia.
      * assert (Hr : status_code r < 400 \/ 600 <= status_code r) by lia.
        rewrite (send_classified _ _ _ _ _ Hpost Hr). fold w'.
        destruct (response_json r) as [| | | | | |members]; eauto.
        destruct (is_False _); eauto.
  - right. do 2 eexists. apply (send_post_raised _ _ _ _ _ Hpost).
Qed.

End Executor.

(** ** The claims about the executor and the tasks *)

Section Delivery.

Context `{Python}.
Variable env : Env.

Lemma store_failure_outbox (id : Z) (e : exn) (response : option Response) (w : World) :
  outbox (snd (_store_failure_info env id e response w)) = outbox w.
Proof.
  destruct (configs w !! id) as [c|] eqn:Hc.
  - now rewrite (store_failure_hit _ _ _ _ _ _ Hc).
  - now rewrite (store_failure_miss _ _ _ _ _ Hc).
Qed.

Lemma store_success_outbox (id : Z) (w : World) :
  outbox (snd (_store_success_info id w)) = outbox w.
Proof.
  destruct (configs w !! id) as [c|] eqn:Hc.
  - now rewrite (store_success_hit _ _ _ Hc).
  - now rewrite (store_success_miss _ _ Hc).
Qed.

(** One POST goes out per run, whatever comes of it. *)
Lemma send_outbox (bot_token : string) (payload : list (string * json)) (id : Z)
    (w : World) :
  outbox (snd (_send_telegram_message env bot_token payload id w))
  = (outbox w ++ [send_request bot_token payload])%list.
Proof.
  destruct (send_ends_in_a_write env bot_token payload id w) as [Heq|(e & resp & Heq)];
    rewrite Heq.
  - now rewrite store_success_outbox.
  - now rewrite store_failure_outbox.
Qed.


(** C7: when the POST raises and the exception carries no response, as a
    timeout or a connection error does, the failure is recorded with the
    status code, the response text and the JSON flag null, the error type the
    class name of the exception and the error message its text. *)
Theorem transport_failure_is_recorded (bot_token : string)
    (payload : list (string * json)) (id : Z) (w : World) (c : MessagingServiceConfig)
    (e : exn) :
  configs w !! id = Some c ->
  remote env (send_request bot_token payload) = PostRaises e ->
  response_of e = None ->
  exists c',
    _send_telegram_message env bot_token payload id w
    = (Returns tt, stored (sent w (send_request bot_token payload)) id c')
    /\ last_failure_timestamp c' = Some (now env)
    /\ last_failure_status_code c' = None
    /\ last_failure_response_text c' = None
    /\ last_failure_is_json c' = None
    /\ last_failure_error_type c' = Some (class_name e)
    /\ last_failure_error_message c' = Some (str_of e).
Proof.
  intros Hc Hpost Hresp.
  rewrite (send_post_raised env bot_token payload id w e Hpost), Hresp.
  rewrite (store_failure_hit env id _ _ (sent w (send_request bot_token payload)) c Hc).
  eexists. split; [reflexivity|]. simpl. repeat split.
Qed.

(** C10: an answer with a 2xx status whose decoded body is an object
    without the member [ok], or with a member [ok] that is not the boolean
    false, takes the success path: the run is the success write made after
    the POST, which on an existing row clears the failure fields.  The
    failure branch is left for [ok] being exactly false. *)
Theorem ok_other_than_false_is_success (bot_token : string)
    (payload : list (string * json)) (id : Z) (w : World) (r : Response)
    (members : list (string * json)) :
  remote env (send_request bot_token payload) = PostReturns r ->
  200 <= status_code r < 300 ->
  json_loads (text r) = Some (JObject members) ->
  has_key members "ok" = false \/ dict_get members "ok" JNull <> JBool false ->
  _send_telegram_message env bot_token payload id w
  = _store_success_info id (sent w (send_request bot_token payload))
  /\ fst (_send_telegram_message env bot_token payload id w) = Returns tt
  /\ forall c : MessagingServiceConfig,
       configs w !! id = Some c ->
       snd (_send_telegram_message env bot_token payload id w)
       = stored (sent w (send_request bot_token payload)) id (clear_failure_status c).
Proof.
  intros Hpost Hr Hjson Hok.
  assert (Hr' : status_code r < 400 \/ 600 <= status_code r) by lia.
  assert (Hnot : is_False (dict_get members "ok" JNull) = false).
  { destruct Hok as [Hk|Hne].
    - rewrite dict_get_missing by exact Hk. reflexivity.
    - destruct (dict_get members "ok" JNull) as [|[|]| | | | |]; try reflexivity.
      congruence. }
  pose proof (send_classified env bot_token payload id w r Hpost Hr') as Hrun.
  cbv zeta in Hrun. unfold response_json in Hrun. rewrite Hjson, Hnot in Hrun.
  split; [exact Hrun|]. split.
  - rewrite Hrun. apply store_success_returns.
  - intros c Hc. rewrite Hrun.
    rewrite (store_success_hit id (sent w (send_request bot_token payload)) c Hc).
    reflexivity.
Qed.

(** C9: the test message for the project "Acme" and the display name
    "Prod Alerts" goes out as one POST whose text is three lines: the fixed
    sentence, "Project: Acme" and "Message backend: Prod Alerts". *)
Theorem test_message_is_three_lines (bot_token chat_id : string) (id : Z) (w : World) :
  let sentence := "Test message by Bugsink to test the Telegram bot setup." in
  let body :=
    sentence +:+ PyStr.LF +:+ "Project: Acme" +:+ PyStr.LF
    +:+ "Message backend: Prod Alerts" in
  outbox (snd (telegram_backend_send_test_message env bot_token chat_id
                 "Acme" "Prod Alerts" id w))
  = (outbox w
     ++ [send_request bot_token
           [ ("chat_id", JString chat_id); ("text", JString body);
             ("disable_web_page_preview", JBool true) ]])%list
  /\ PyStr.lines body = [sentence; "Project: Acme"; "Message backend: Prod Alerts"].
Proof.
  cbv zeta. split; [|vm_compute; reflexivity].
  unfold telegram_backend_send_test_message. rewrite send_outbox.
  reflexivity.
Qed.

End Delivery.

(** ** The statements on concrete worlds *)

Example loads_not_ok :
  Reference.loads (Reference.body_not_ok "chat not found")
  = Some (JObject [("ok", JBool false); ("description", JString "chat not found")]).
Proof. vm_compute. reflexivity. Qed.

(** The row 1 of the demo world, after a read timeout is recorded. *)
Lemma outcome_write_is_one_snapshot_witness :
  configs Demo.world !! 1 = Some Demo.healthy
  /\ exists c',
       configs (snd (_store_failure_info (H := Reference.python) (Demo.env (PostRaises Demo.read_timeout))
                       1 Demo.read_timeout None Demo.world)) !! 1 = Some c'
       /\ failure_snapshot c' = true
       /\ all_populated c' = false.
Proof.
  assert (Hc : configs Demo.world !! 1 = Some Demo.healthy) by reflexivity.
  split; [exact Hc|].
  destruct (@outcome_write_is_one_snapshot Reference.python
              (Demo.env (PostRaises Demo.read_timeout)) 1 Demo.read_timeout None
              Demo.world Demo.healthy Hc) as [(c' & Hrow & _ & Hsnap & _ & Hpop) _].
  exists c'. repeat split; assumption.
Defined.

(** C3 as stated fails: after a transport failure is recorded the row is
    neither all null nor all populated; the timestamp is set while the status
    code is null. *)
Lemma transport_failure_is_a_partial_mix :
  exists c',
    configs (snd (_store_failure_info (H := Reference.python)
                    (Demo.env (PostRaises Demo.read_timeout))
                    1 Demo.read_timeout None Demo.world)) !! 1 = Some c'
    /\ all_null c' = false
    /\ all_populated c' = false
    /\ last_failure_timestamp c' = Some 1700000000
    /\ last_failure_error_type c' = Some "ReadTimeout"
    /\ last_failure_status_code c' = None
    /\ last_failure_response_text c' = None
    /\ last_failure_is_json c' = None.
Proof.
  eexists. split; [vm_compute; reflexivity|]. repeat split.
Qed.

(** Both writers on a world without the row. *)
Lemma outcome_write_lookup_miss_witness :
  configs Demo.empty_world !! 1 = None
  /\ _store_failure_info (H := Reference.python) (Demo.env (PostRaises Demo.read_timeout))
       1 Demo.read_timeout None Demo.empty_world = (Returns tt, Demo.empty_world)
  /\ _store_success_info 1 Demo.empty_world = (Returns tt, Demo.empty_world).
Proof.
  assert (Hc : configs Demo.empty_world !! 1 = None) by reflexivity.
  split; [exact Hc|].
  exact (@outcome_write_lookup_miss Reference.python
           (Demo.env (PostRaises Demo.read_timeout)) 1 Demo.read_timeout None
           Demo.empty_world Hc).
Defined.

(** A timeout, then a success, on the row 1 of the demo world. *)
Lemma success_after_failure_clears_witness :
  configs Demo.world !! 1 = Some Demo.healthy
  /\ exists c',
       configs (snd (_store_success_info 1
                       (snd (_store_failure_info (H := Reference.python)
                               (Demo.env (PostRaises Demo.read_timeout))
                               1 Demo.read_timeout None Demo.world)))) !! 1 = Some c'
       /\ all_null c' = true.
Proof.
  assert (Hc : configs Demo.world !! 1 = Some Demo.healthy) by reflexivity.
  split; [exact Hc|].
  destruct (@success_after_failure_clears Reference.python
              (Demo.env (PostRaises Demo.read_timeout)) 1 Demo.read_timeout None
              Demo.world Demo.healthy Hc)
    as (c' & Hrow & Hts & Hty & Hmsg & Hcode & Htext & Hjson & _).
  exists c'. split; [exact Hrow|].
  unfold all_null. rewrite Hts, Hty, Hmsg, Hcode, Htext, Hjson. reflexivity.
Defined.


(** The scenario of C7: the POST times out. *)
Lemma transport_failure_is_recorded_witness :
  exists c',
    configs (snd (_send_telegram_message (H := Reference.python)
                    (Demo.env (PostRaises Demo.read_timeout))
                    "T" Demo.payload 1 Demo.world)) !! 1 = Some c'
    /\ last_failure_status_code c' = None
    /\ last_failure_response_text c' = None
    /\ last_failure_is_json c' = None
    /\ last_failure_error_type c' = Some "ReadTimeout".
Proof.
  destruct (@transport_failure_is_recorded Reference.python
              (Demo.env (PostRaises Demo.read_timeout))
              "T" Demo.payload 1 Demo.world Demo.healthy Demo.read_timeout
              eq_refl eq_refl eq_refl)
    as (c' & Hrun & _ & Hcode & Htext & Hjson & Hty & _).
  exists c'. rewrite Hrun. simpl. rewrite lookup_insert_eq.
  repeat split; assumption.
Defined.

(** A 200 whose body has [ok] set to the number 0, on the failed channel. *)
Lemma ok_other_than_false_is_success_witness :
  let r := Demo.response 200 "OK" Reference.body_ok_zero in
  exists c',
    configs (snd (_send_telegram_message (H := Reference.python) (Demo.env (PostReturns r))
                    "T" Demo.payload 1 Demo.broken_world)) !! 1 = Some c'
    /\ all_null c' = true.
Proof.
  cbv zeta.
  assert (Hr : 200 <= status_code (Demo.response 200 "OK" Reference.body_ok_zero) < 300)
    by (simpl; lia).
  assert (Hjson : json_loads (Python := Reference.python)
                    (text (Demo.response 200 "OK" Reference.body_ok_zero))
                  = Some (JObject [("ok", JInt 0)]))
    by (vm_compute; reflexivity).
  assert (Hok : has_key [("ok", JInt 0)] "ok" = false
                \/ dict_get [("ok", JInt 0)] "ok" JNull <> JBool false)
    by (right; simpl; discriminate).
  destruct (@ok_other_than_false_is_success Reference.python
              (Demo.env (PostReturns (Demo.response 200 "OK" Reference.body_ok_zero)))
              "T" Demo.payload 1 Demo.broken_world
              (Demo.response 200 "OK" Reference.body_ok_zero)
              [("ok", JInt 0)] eq_refl Hr Hjson Hok)
    as (_ & _ & Hrow).
  exists (clear_failure_status Demo.broken).
  rewrite (Hrow Demo.broken eq_refl). simpl. rewrite lookup_insert_eq.
  split; reflexivity.
Defined.

(** The same with a body that has no member [ok] at all. *)
Example missing_ok_is_success :
  let r := Demo.response 200 "OK" Reference.body_no_ok in
  Reference.loads (text r) = Some (JObject [("result", JArray [])])
  /\ _send_telegram_message (H := Reference.python) (Demo.env (PostReturns r))
       "T" Demo.payload 1 Demo.broken_world
     = _store_success_info 1 (sent Demo.broken_world (send_request "T" Demo.payload)).
Proof.
  cbv zeta.
  assert (Hjson : Reference.loads (text (Demo.response 200 "OK" Reference.body_no_ok))
                  = Some (JObject [("result", JArray [])]))
    by (vm_compute; reflexivity).
  split; [exact Hjson|].
  assert (Hr : status_code (Demo.response 200 "OK" Reference.body_no_ok) < 400
               \/ 600 <= status_code (Demo.response 200 "OK" Reference.body_no_ok))
    by (left; simpl; lia).
  pose proof (@send_classified Reference.python
                (Demo.env (PostReturns (Demo.response 200 "OK" Reference.body_no_ok)))
                "T" Demo.payload 1 Demo.broken_world
                (Demo.response 200 "OK" Reference.body_no_ok) eq_refl Hr) as Hrun.
  cbv zeta in Hrun. unfold response_json in Hrun.
  change (json_loads (text (Demo.response 200 "OK" Reference.body_no_ok)))
    with (Reference.loads (text (Demo.response 200 "OK" Reference.body_no_ok))) in Hrun.
  rewrite Hjson in Hrun. exact Hrun.
Qed.

(** An answer that decodes to a list has no [get]: the [AttributeError] is
    caught by the second handler and recorded without a response. *)
Example list_body_is_recorded :
  let r := Demo.response 200 "OK" "[1, 2]" in
  exists c',
    configs (snd (_send_telegram_message (H := Reference.python) (Demo.env (PostReturns r))
                    "T" Demo.payload 1 Demo.world)) !! 1 = Some c'
    /\ last_failure_error_type c' = Some "AttributeError"
    /\ last_failure_error_message c' = Some "'list' object has no attribute 'get'"
    /\ last_failure_status_code c' = None.
Proof. cbv zeta. eexists. split; [vm_compute; reflexivity|]. repeat split. Qed.


(** * Further properties of the code *)

(** ** The composer at any limit *)

(** X1: for every limit of at least 3, the truncated text never exceeds
    the limit; a longer text becomes its first [max_length - 3] characters
    followed by three dots, [max_length] characters in all, and a text that
    fits is returned as it is. *)
Theorem truncate_message_any_limit (text : string) (max_length : Z) :
  3 <= max_length ->
  let out := _truncate_message text max_length in
  let L := Z.of_nat (String.length text) in
  Z.of_nat (String.length out) <= max_length
  /\ Z.of_nat (String.length out) <= L
  /\ (max_length < L ->
      out = PyStr.take (Z.to_nat (max_length - 3)) text +:+ "..."
      /\ Z.of_nat (String.length out) = max_length)
  /\ (L <= max_length -> out = text).
Proof.
  intros Hm. unfold _truncate_message. cbv zeta.
  destruct (Z.leb_spec (Z.of_nat (String.length text)) max_length) as [Hle|Hgt].
  - split; [lia|]. split; [lia|]. split; [intros; lia | reflexivity].
  - assert (Hlen : Z.of_nat (String.length (PyStr.slice_to text (max_length - 3) +:+ "..."))
                   = max_length).
    { rewrite PyStrFacts.length_app, Nat2Z.inj_add, PyStrFacts.length_slice_to by lia.
      simpl String.length. lia. }
    split; [lia|]. split; [lia|]. split; [intros _ | intros; lia].
    split; [|exact Hlen].
    rewrite PyStrFacts.slice_to_nonneg by lia. reflexivity.
Qed.

Lemma truncate_message_any_limit_witness :
  3 <= 5 /\ _truncate_message "abcdefgh" 5 = "ab...".
Proof.
  assert (Hm : 3 <= 5) by lia.
  split; [exact Hm|].
  destruct (truncate_message_any_limit "abcdefgh" 5 Hm) as (_ & _ & Hcut & _).
  destruct Hcut as [Hout _]; [simpl; lia|]. exact Hout.
Defined.

(** X2: for every limit of at least 3, truncating a truncated text changes
    nothing. *)
Theorem truncate_message_idempotent (text : string) (max_length : Z) :
  3 <= max_length ->
  _truncate_message (_truncate_message text max_length) max_length
  = _truncate_message text max_length.
Proof.
  intros Hm.
  assert (Hlen : Z.of_nat (String.length (_truncate_message text max_length)) <= max_length).
  { unfold _truncate_message.
    destruct (Z.leb_spec (Z.of_nat (String.length text)) max_length) as [Hle|Hgt];
      [exact Hle|].
    rewrite PyStrFacts.length_app, Nat2Z.inj_add, PyStrFacts.length_slice_to by lia.
    simpl String.length. lia. }
  unfold _truncate_message at 1.
  destruct (Z.leb_spec (Z.of_nat (String.length (_truncate_message text max_length)))
              max_length) as [_|Hgt]; [reflexivity | lia].
Qed.

Lemma truncate_message_idempotent_witness :
  3 <= 5 /\ _truncate_message (_truncate_message "abcdefgh" 5) 5 = _truncate_message "abcdefgh" 5.
Proof.
  assert (Hm : 3 <= 5) by lia.
  split; [exact Hm|]. exact (truncate_message_idempotent "abcdefgh" 5 Hm).
Defined.

(** ** The delivery state store: bounds, frame and overwriting *)

Section StateStoreMore.

Context `{Python}.
Variable env : Env.

(** X3: the response text a failure write stores is the first 2000
    characters of the body: never longer than 2000 characters, and the whole
    body when the body has at most 2000. *)
Theorem stored_response_text_is_bounded (id : Z) (e : exn) (r : Response) (w : World)
    (c : MessagingServiceConfig) :
  configs w !! id = Some c ->
  exists (c' : MessagingServiceConfig) (kept : string),
    configs (snd (_store_failure_info env id e (Some r) w)) !! id = Some c'
    /\ last_failure_response_text c' = Some kept
    /\ kept = PyStr.take (Z.to_nat 2000) (text r)
    /\ Z.of_nat (String.length kept) <= 2000
    /\ (Z.of_nat (String.length (text r)) <= 2000 -> kept = text r).
Proof.
  intros Hc. rewrite (store_failure_hit env id e (Some r) w c Hc).
  exists (recorded_failure env e (Some r) c), (PyStr.slice_to (text r) 2000).
  simpl. rewrite lookup_insert_eq. split; [reflexivity|]. split; [reflexivity|].
  split; [apply PyStrFacts.slice_to_nonneg; lia|].
  split.
  - rewrite PyStrFacts.length_slice_to by lia. lia.
  - intros Hshort. rewrite PyStrFacts.slice_to_nonneg by lia.
    apply PyStrFacts.take_all. lia.
Qed.

(** X4: a failure write touches one row only, and of that row the failure
    fields only: every other row, the set of keys, the issues and the record
    of what was sent stay as they were, and so do the display name and the
    configuration of the row itself. *)
Theorem store_failure_frame (id : Z) (e : exn) (response : option Response) (w : World) :
  let w' := snd (_store_failure_info env id e response w) in
  (forall id' : Z, id' <> id -> configs w' !! id' = configs w !! id')
  /\ dom (configs w') = dom (configs w)
  /\ issues w' = issues w
  /\ outbox w' = outbox w
  /\ (forall c : MessagingServiceConfig,
         configs w !! id = Some c ->
         exists c',
           configs w' !! id = Some c'
           /\ display_name c' = display_name c
           /\ config c' = config c).
Proof.
  cbv zeta. destruct (configs w !! id) as [c|] eqn:Hc.
  - rewrite (store_failure_hit env id e response w c Hc). simpl.
    split; [intros id' Hne; now rewrite lookup_insert_ne|].
    split; [apply dom_insert_lookup_L; rewrite Hc; eauto|].
    split; [reflexivity|]. split; [reflexivity|].
    intros c0 Hc0. inversion Hc0; subst c0.
    eexists. rewrite lookup_insert_eq. split; [reflexivity|]. split; reflexivity.
  - rewrite (store_failure_miss env id e response w Hc). simpl.
    repeat split. intros c0 Hc0. congruence.
Qed.

(** X5: a success write touches one row only: every other row, the set of
    keys, the issues and the record of what was sent stay as they were. *)
Theorem store_success_frame (id : Z) (w : World) :
  let w' := snd (_store_success_info id w) in
  (forall id' : Z, id' <> id -> configs w' !! id' = configs w !! id')
  /\ dom (configs w') = dom (configs w)
  /\ issues w' = issues w
  /\ outbox w' = outbox w.
Proof.
  cbv zeta. destruct (configs w !! id) as [c|] eqn:Hc.
  - rewrite (store_success_hit id w c Hc). simpl.
    split; [intros id' Hne; now rewrite lookup_insert_ne|].
    split; [apply dom_insert_lookup_L; rewrite Hc; eauto|].
    split; reflexivity.
  - rewrite (store_success_miss id w Hc). repeat split.
Qed.

(** X6: the last failure write wins: recording a second failure on top of
    a first one leaves exactly what recording the second alone leaves. *)
Theorem later_failure_overwrites (id : Z) (e1 e2 : exn) (r1 r2 : option Response)
    (w : World) :
  _store_failure_info env id e2 r2 (snd (_store_failure_info env id e1 r1 w))
  = _store_failure_info env id e2 r2 w.
Proof.
  destruct (configs w !! id) as [c|] eqn:Hc.
  - rewrite (store_failure_hit env id e1 r1 w c Hc). cbn [snd].
    assert (Hc1 : configs (stored w id (recorded_failure env e1 r1 c)) !! id
                  = Some (recorded_failure env e1 r1 c))
      by (simpl; apply lookup_insert_eq).
    rewrite (store_failure_hit env id e2 r2 _ _ Hc1).
    rewrite (store_failure_hit env id e2 r2 w c Hc).
    f_equal. unfold stored. simpl. f_equal. apply insert_insert_eq.
  - rewrite (store_failure_miss env id e1 r1 w Hc). reflexivity.
Qed.

End StateStoreMore.

Lemma stored_response_text_is_bounded_witness :
  configs Demo.world !! 1 = Some Demo.healthy
  /\ exists c',
       configs (snd (_store_failure_info (H := Reference.python)
                       (Demo.env (PostRaises Demo.read_timeout)) 1 Demo.read_timeout
                       (Some (Demo.response 502 "Bad Gateway" (Demo.filler 2500)))
                       Demo.world)) !! 1 = Some c'
       /\ last_failure_response_text c' = Some (Demo.filler 2000).
Proof.
  assert (Hc : configs Demo.world !! 1 = Some Demo.healthy) by reflexivity.
  split; [exact Hc|].
  destruct (@stored_response_text_is_bounded Reference.python
              (Demo.env (PostRaises Demo.read_timeout)) 1 Demo.read_timeout
              (Demo.response 502 "Bad Gateway" (Demo.filler 2500))
              Demo.world Demo.healthy Hc)
    as (c' & kept & Hrow & Htext & Hkept & _).
  exists c'. split; [exact Hrow|].
  rewrite Htext, Hkept. vm_compute. reflexivity.
Defined.

(** ** The executor: one POST, one row *)

Section ExecutorMore.

Context `{Python}.
Variable env : Env.

(* Settles a goal about the world after a run from the two shapes a run can
   take and the two cases of the lookup of the row. *)
Ltac by_final_write bot_token payload id w :=
  let Heq := fresh "Heq" in
  let Hc := fresh "Hc" in
  let c := fresh "c" in
  destruct (send_ends_in_a_write env bot_token payload id w) as [Heq|(? & ? & Heq)];
  rewrite Heq;
  destruct (configs (sent w (send_request bot_token payload)) !! id) as [c|] eqn:Hc;
  [ rewrite (store_success_hit id _ c Hc)
  | rewrite (store_success_miss id _ Hc)
  | rewrite (store_failure_hit env id _ _ _ c Hc)
  | rewrite (store_failure_miss env id _ _ _ Hc) ].

(** X7: when the row of the correlation id is gone, the message is sent
    all the same and the run returns; no table changes, whatever the remote
    end answers or raises. *)
Theorem send_without_row (bot_token : string) (payload : list (string * json)) (id : Z)
    (w : World) :
  configs w !! id = None ->
  _send_telegram_message env bot_token payload id w
  = (Returns tt, sent w (send_request bot_token payload)).
Proof.
  intros Hc.
  assert (Hc' : configs (sent w (send_request bot_token payload)) !! id = None) by exact Hc.
  destruct (send_ends_in_a_write env bot_token payload id w) as [Heq|(e & resp & Heq)];
    rewrite Heq.
  - apply (store_success_miss id _ Hc').
  - apply (store_failure_miss env id _ _ _ Hc').
Qed.

(** X8: a run changes at most the row of its correlation id: every other
    row, the set of keys and the issues stay as they were. *)
Theorem send_frame (bot_token : string) (payload : list (string * json)) (id : Z)
    (w : World) :
  let w' := snd (_send_telegram_message env bot_token payload id w) in
  (forall id' : Z, id' <> id -> configs w' !! id' = configs w !! id')
  /\ dom (configs w') = dom (configs w)
  /\ issues w' = issues w.
Proof.
  cbv zeta. by_final_write bot_token payload id w; simpl.
  all: split; [intros id' Hne; try rewrite lookup_insert_ne by congruence; reflexivity|].
  all: split; [|reflexivity].
  all: try reflexivity.
  all: apply dom_insert_lookup_L; simpl in *; eauto.
Qed.

(** X9: a run makes exactly one POST, to the sendMessage URL of the token,
    with the payload it was given and a timeout of 5 seconds, whether the
    delivery succeeded or failed: there is no second attempt. *)
Theorem send_posts_once (bot_token : string) (payload : list (string * json)) (id : Z)
    (w : World) :
  exists request : Request,
    outbox (snd (_send_telegram_message env bot_token payload id w))
    = (outbox w ++ [request])%list
    /\ req_url request = "https://api.telegram.org/bot" +:+ bot_token +:+ "/sendMessage"
    /\ req_json request = payload
    /\ req_timeout request = 5.
Proof.
  exists (send_request bot_token payload).
  split; [|repeat split].
  by_final_write bot_token payload id w; reflexivity.
Qed.

(** X10: an answer outside the error classes whose body is not JSON, or is
    the JSON null, counts as a success. *)
Theorem undecodable_body_is_success (bot_token : string) (payload : list (string * json))
    (id : Z) (w : World) (r : Response) :
  remote env (send_request bot_token payload) = PostReturns r ->
  status_code r < 400 ->
  json_loads (text r) = None \/ json_loads (text r) = Some JNull ->
  _send_telegram_message env bot_token payload id w
  = _store_success_info id (sent w (send_request bot_token payload)).
Proof.
  intros Hpost Hr Hbody.
  pose proof (send_classified env bot_token payload id w r Hpost (or_introl Hr)) as Hrun.
  cbv zeta in Hrun. unfold response_json in Hrun.
  destruct Hbody as [Hb|Hb]; rewrite Hb in Hrun; exact Hrun.
Qed.

(** X11: an answer outside the error classes whose body decodes to
    something that is neither an object nor null (a list, a number, a string,
    a boolean) is recorded as a failure of type AttributeError, without
    status code, response text or JSON flag, although an HTTP response
    exists. *)
Theorem non_object_body_is_attribute_error (bot_token : string)
    (payload : list (string * json)) (id : Z) (w : World) (c : MessagingServiceConfig)
    (r : Response) (v : json) :
  configs w !! id = Some c ->
  remote env (send_request bot_token payload) = PostReturns r ->
  status_code r < 400 ->
  json_loads (text r) = Some v ->
  type_name v <> "NoneType" ->
  type_name v <> "dict" ->
  exists c',
    _send_telegram_message env bot_token payload id w
    = (Returns tt, stored (sent w (send_request bot_token payload)) id c')
    /\ last_failure_error_type c' = Some "AttributeError"
    /\ last_failure_error_message c'
       = Some ("'" +:+ type_name v +:+ "' object has no attribute 'get'")
    /\ last_failure_status_code c' = None
    /\ last_failure_response_text c' = None
    /\ last_failure_is_json c' = None.
Proof.
  intros Hc Hpost Hr Hjson Hnull Hdict.
  pose proof (send_classified env bot_token payload id w r Hpost (or_introl Hr)) as Hrun.
  cbv zeta in Hrun. unfold response_json in Hrun. rewrite Hjson in Hrun.
  rewrite Hrun.
  destruct v as [| | | | | |members];
    [ exfalso; apply Hnull; reflexivity | | | | |
    | exfalso; apply Hdict; reflexivity ];
    rewrite (store_failure_hit env id _ _ (sent w (send_request bot_token payload)) c Hc);
    eexists; (split; [reflexivity|]); simpl; repeat split.
Qed.


End ExecutorMore.

Lemma send_without_row_witness :
  configs Demo.empty_world !! 1 = None
  /\ _send_telegram_message (H := Reference.python) (Demo.env (PostRaises Demo.read_timeout))
       "T" Demo.payload 1 Demo.empty_world
     = (Returns tt, sent Demo.empty_world (send_request "T" Demo.payload)).
Proof.
  assert (Hc : configs Demo.empty_world !! 1 = None) by reflexivity.
  split; [exact Hc|].
  exact (@send_without_row Reference.python (Demo.env (PostRaises Demo.read_timeout))
           "T" Demo.payload 1 Demo.empty_world Hc).
Defined.

Lemma undecodable_body_is_success_witness :
  let r := Demo.response 200 "OK" "<html>" in
  Reference.loads (text r) = None
  /\ _send_telegram_message (H := Reference.python) (Demo.env (PostReturns r))
       "T" Demo.payload 1 Demo.broken_world
     = _store_success_info 1 (sent Demo.broken_world (send_request "T" Demo.payload)).
Proof.
  cbv zeta.
  assert (Hr : status_code (Demo.response 200 "OK" "<html>") < 400) by (simpl; lia).
  assert (Hjson : json_loads (Python := Reference.python)
                    (text (Demo.response 200 "OK" "<html>")) = None)
    by (vm_compute; reflexivity).
  split; [exact Hjson|].
  exact (@undecodable_body_is_success Reference.python
           (Demo.env (PostReturns (Demo.response 200 "OK" "<html>")))
           "T" Demo.payload 1 Demo.broken_world (Demo.response 200 "OK" "<html>")
           eq_refl Hr (or_introl Hjson)).
Defined.

Lemma non_object_body_is_attribute_error_witness :
  let r := Demo.response 200 "OK" "[1, 2]" in
  exists c',
    configs (snd (_send_telegram_message (H := Reference.python) (Demo.env (PostReturns r))
                    "T" Demo.payload 1 Demo.world)) !! 1 = Some c'
    /\ last_failure_error_message c' = Some "'list' object has no attribute 'get'"
    /\ last_failure_status_code c' = None.
Proof.
  cbv zeta.
  assert (Hc : configs Demo.world !! 1 = Some Demo.healthy) by reflexivity.
  assert (Hr : status_code (Demo.response 200 "OK" "[1, 2]") < 400) by (simpl; lia).
  assert (Hjson : json_loads (Python := Reference.python)
                    (text (Demo.response 200 "OK" "[1, 2]"))
                  = Some (JArray [JInt 1; JInt 2]))
    by (vm_compute; reflexivity).
  assert (Hnull : type_name (JArray [JInt 1; JInt 2]) <> "NoneType")
    by (simpl; discriminate).
  assert (Hdict : type_name (JArray [JInt 1; JInt 2]) <> "dict")
    by (simpl; discriminate).
  destruct (@non_object_body_is_attribute_error Reference.python
              (Demo.env (PostReturns (Demo.response 200 "OK" "[1, 2]")))
              "T" Demo.payload 1 Demo.world Demo.healthy
              (Demo.response 200 "OK" "[1, 2]") (JArray [JInt 1; JInt 2])
              Hc eq_refl Hr Hjson Hnull Hdict)
    as (c' & Hrun & _ & Hmsg & Hcode & _).
  exists c'. rewrite Hrun. simpl. rewrite lookup_insert_eq.
  repeat split; assumption.
Defined.


(** ** The two tasks *)

Module PyStrLines.
Import PyStr.

Lemma split_at_lacks (sep : ascii) (s : string) :
  lacks sep s = true -> split_at sep s = [s].
Proof.
  induction s as [|c s IH]; simpl; [reflexivity|].
  intros Hs. apply andb_true_iff in Hs as [Hc Hs].
  apply negb_true_iff in Hc. rewrite Hc, (IH Hs). reflexivity.
Qed.

Lemma split_at_app (sep : ascii) (a b : string) :
  lacks sep a = true -> split_at sep (a +:+ String sep b) = a :: split_at sep b.
Proof.
  induction a as [|c a IH]; simpl.
  - intros _. rewrite Ascii.eqb_refl. reflexivity.
  - intros Hs. apply andb_true_iff in Hs as [Hc Hs].
    apply negb_true_iff in Hc. rewrite Hc, (IH Hs). reflexivity.
Qed.

(** Joining lines that hold no line feed and splitting the text again gives
    the lines back. *)
Lemma lines_join (parts : list string) :
  parts <> [] ->
  forallb (lacks "010"%char) parts = true ->
  lines (join LF parts) = parts.
Proof.
  unfold lines.
  induction parts as [|p rest IH]; [congruence|].
  intros _ Hall. simpl in Hall. apply andb_true_iff in Hall as [Hp Hrest].
  destruct rest as [|q rest'].
  - simpl. apply split_at_lacks. exact Hp.
  - change (join LF (p :: q :: rest')) with (p +:+ String "010"%char (join LF (q :: rest'))).
    rewrite (split_at_app _ _ _ Hp). f_equal.
    apply IH; [congruence | exact Hrest].
Qed.

Lemma lacks_app (sep : ascii) (a b : string) :
  lacks sep (a +:+ b) = lacks sep a && lacks sep b.
Proof.
  induction a as [|c a IH]; simpl; [reflexivity|].
  rewrite IH. apply andb_assoc.
Qed.

End PyStrLines.

Lemma truncate_length_le (text : string) (max_length : Z) :
  3 <= max_length ->
  Z.of_nat (String.length (_truncate_message text max_length)) <= max_length.
Proof.
  intros Hm. unfold _truncate_message.
  destruct (Z.leb_spec (Z.of_nat (String.length text)) max_length) as [Hle|Hgt];
    [exact Hle|].
  rewrite PyStrFacts.length_app, Nat2Z.inj_add, PyStrFacts.length_slice_to by lia.
  simpl String.length. lia.
Qed.

Lemma truncate_fits (text : string) (max_length : Z) :
  Z.of_nat (String.length text) <= max_length ->
  _truncate_message text max_length = text.
Proof.
  intros Hle. unfold _truncate_message.
  destruct (Z.leb_spec (Z.of_nat (String.length text)) max_length); [reflexivity | lia].
Qed.

Section TasksMore.

Context `{Python}.
Variable env : Env.

(** X13: whatever the project name and the display name, the test-message
    task makes one POST whose payload holds the chat id as given, link
    previews switched off, and a text of at most 4000 characters. *)
Theorem test_message_text_is_bounded (bot_token chat_id project_name display_name : string)
    (id : Z) (w : World) :
  exists text : string,
    outbox (snd (telegram_backend_send_test_message env bot_token chat_id project_name
                   display_name id w))
    = (outbox w
       ++ [send_request bot_token
             [ ("chat_id", JString chat_id); ("text", JString text);
               ("disable_web_page_preview", JBool true) ]])%list
    /\ Z.of_nat (String.length text) <= 4000.
Proof.
  unfold telegram_backend_send_test_message. eexists.
  rewrite send_outbox. split; [reflexivity|].
  apply truncate_length_le. unfold max_length_default. lia.
Qed.

(** X14: when neither name holds a line feed and the two names have at
    most 3917 characters together, the text of the test message splits into
    exactly three lines: the fixed sentence, "Project: " with the project
    name, and "Message backend: " with the display name. *)
Theorem test_message_lines (bot_token chat_id project_name display_name : string)
    (id : Z) (w : World) :
  lacks "010"%char project_name = true ->
  lacks "010"%char display_name = true ->
  Z.of_nat (String.length project_name + String.length display_name) <= 3917 ->
  exists request : Request,
    outbox (snd (telegram_backend_send_test_message env bot_token chat_id project_name
                   display_name id w))
    = (outbox w ++ [request])%list
    /\ PyStr.lines <$> payload_text (req_json request) "text"
       = Some [ test_sentence;
                "Project: " +:+ project_name;
                "Message backend: " +:+ display_name ].
Proof.
  intros Hp Hd Hlen.
  unfold telegram_backend_send_test_message. eexists.
  rewrite send_outbox. split; [reflexivity|].
  unfold send_request, payload_text. cbn [req_json].
  change (dict_get _ "text" JNull)
    with (JString (_truncate_message
                     (PyStr.join PyStr.LF
                        [ test_sentence; "Project: " +:+ project_name;
                          "Message backend: " +:+ display_name ])
                     max_length_default)).
  cbn [fmap option_fmap option_map]. f_equal.
  rewrite truncate_fits.
  - apply PyStrLines.lines_join; [congruence|].
    cbn [forallb]. rewrite !PyStrLines.lacks_app, Hp, Hd. reflexivity.
  - unfold max_length_default.
    change (PyStr.join PyStr.LF
              [ test_sentence; "Project: " +:+ project_name;
                "Message backend: " +:+ display_name ])
      with (test_sentence +:+ PyStr.LF +:+ ("Project: " +:+ project_name) +:+ PyStr.LF
            +:+ ("Message backend: " +:+ display_name)).
    rewrite !PyStrFacts.length_app. simpl String.length. lia.
Qed.

(** X15: an alert for an issue that does not exist raises
    [Issue.DoesNotExist] before anything else happens: no POST goes out and
    no row is written. *)
Theorem alert_for_missing_issue (bot_token chat_id : string) (issue_id : Z)
    (state_description alert_article alert_reason : string) (id : Z)
    (unmute_reason : option string) (w : World) :
  issues w !! issue_id = None ->
  telegram_backend_send_alert env bot_token chat_id issue_id state_description
    alert_article alert_reason id unmute_reason w
  = (Raises IssueDoesNotExist, w).
Proof.
  intros Hi. unfold telegram_backend_send_alert, bind, issue_objects_get.
  rewrite Hi. reflexivity.
Qed.

(** An empty unmute reason is no unmute reason: the alert task runs
    exactly as it does without one. *)
Lemma alert_empty_unmute_reason (bot_token chat_id : string) (issue_id : Z)
    (state_description alert_article alert_reason : string) (id : Z) (w : World) :
  telegram_backend_send_alert env bot_token chat_id issue_id state_description
    alert_article alert_reason id (Some "") w
  = telegram_backend_send_alert env bot_token chat_id issue_id state_description
      alert_article alert_reason id None w.
Proof. reflexivity. Qed.

(** X16: for an issue that exists, the alert task makes one POST whose
    payload holds the chat id as given, link previews switched off, and a
    text of at most 4000 characters, whatever the title, the names, the URL
    and the unmute reason are. *)
Theorem alert_text_is_bounded (bot_token chat_id : string) (issue_id : Z)
    (state_description alert_article alert_reason : string) (id : Z)
    (unmute_reason : option string) (w : World) (issue : Issue) :
  issues w !! issue_id = Some issue ->
  exists text : string,
    outbox (snd (telegram_backend_send_alert env bot_token chat_id issue_id
                   state_description alert_article alert_reason id unmute_reason w))
    = (outbox w
       ++ [send_request bot_token
             [ ("chat_id", JString chat_id); ("text", JString text);
               ("disable_web_page_preview", JBool true) ]])%list
    /\ Z.of_nat (String.length text) <= 4000.
Proof.
  intros Hi. unfold telegram_backend_send_alert, bind, issue_objects_get.
  rewrite Hi. eexists. rewrite send_outbox. split; [reflexivity|].
  apply truncate_length_le. unfold max_length_default. lia.
Qed.

(** X17: the text of an alert that fits in 4000 characters is, line by
    line: the alert reason followed by " issue", the title cut by the
    template filter at 200, the project name, the base URL followed by the
    path of the issue and, only when a non-empty unmute reason is given, a
    last line with that reason.  The state description and the article do
    not appear. *)
Theorem alert_text_lines (bot_token chat_id : string) (issue_id : Z)
    (state_description alert_article alert_reason : string) (id : Z)
    (unmute_reason : option string) (w : World) (issue : Issue) :
  let first_lines :=
    alert_reason +:+ " issue" +:+ PyStr.LF
    +:+ "Issue: " +:+ truncatechars env (issue_title issue) 200 +:+ PyStr.LF
    +:+ "Project: " +:+ issue_project_name issue +:+ PyStr.LF
    +:+ "URL: " +:+ BASE_URL env +:+ issue_absolute_url issue in
  let full :=
    match unmute_reason with
    | Some (String a reason) =>
        first_lines +:+ PyStr.LF +:+ "Unmute reason: " +:+ String a reason
    | _ => first_lines
    end in
  issues w !! issue_id = Some issue ->
  Z.of_nat (String.length full) <= 4000 ->
  outbox (snd (telegram_backend_send_alert env bot_token chat_id issue_id
                 state_description alert_article alert_reason id unmute_reason w))
  = (outbox w
     ++ [send_request bot_token
           [ ("chat_id", JString chat_id); ("text", JString full);
             ("disable_web_page_preview", JBool true) ]])%list.
Proof.
  intros first_lines full Hi Hfit.
  unfold telegram_backend_send_alert, bind, issue_objects_get.
  rewrite Hi. rewrite send_outbox.
  destruct unmute_reason as [[|a reason]|]; cbv zeta; cbn [app];
    match goal with
    | |- context [_truncate_message ?t _] =>
        assert (Ht : t = full)
          by (subst full first_lines; cbn [PyStr.join];
              rewrite ?PyStrFacts.app_assoc; reflexivity);
        rewrite Ht
    end;
    rewrite truncate_fits by exact Hfit; reflexivity.
Qed.

End TasksMore.

Lemma test_message_lines_witness :
  exists request : Request,
    outbox (snd (telegram_backend_send_test_message (H := Reference.python)
                   (Demo.env (PostRaises Demo.read_timeout))
                   "T" "@ops" "Acme" "Prod Alerts" 1 Demo.world))
    = [request]
    /\ PyStr.lines <$> payload_text (req_json request) "text"
       = Some [ test_sentence; "Project: Acme"; "Message backend: Prod Alerts" ].
Proof.
  assert (Hp : lacks "010"%char "Acme" = true) by reflexivity.
  assert (Hd : lacks "010"%char "Prod Alerts" = true) by reflexivity.
  assert (Hlen : Z.of_nat (String.length "Acme" + String.length "Prod Alerts") <= 3917)
    by (simpl; lia).
  exact (@test_message_lines Reference.python (Demo.env (PostRaises Demo.read_timeout))
           "T" "@ops" "Acme" "Prod Alerts" 1 Demo.world Hp Hd Hlen).
Defined.

Lemma alert_for_missing_issue_witness :
  issues Demo.world !! 7 = None
  /\ telegram_backend_send_alert (H := Reference.python)
       (Demo.env (PostReturns (Demo.response 200 "OK" Reference.body_ok)))
       "T" "@ops" 7 "unmuted" "a" "New" 1 (Some "manual") Demo.world
     = (Raises IssueDoesNotExist, Demo.world).
Proof.
  assert (Hi : issues Demo.world !! 7 = None) by reflexivity.
  split; [exact Hi|].
  exact (@alert_for_missing_issue Reference.python
           (Demo.env (PostReturns (Demo.response 200 "OK" Reference.body_ok)))
           "T" "@ops" 7 "unmuted" "a" "New" 1 (Some "manual") Demo.world Hi).
Defined.

Lemma alert_text_is_bounded_witness :
  issues Demo2.world !! 7 = Some Demo2.issue
  /\ exists text : string,
       outbox (snd (telegram_backend_send_alert (H := Reference.python)
                      (Demo.env (PostReturns (Demo.response 200 "OK" Reference.body_ok)))
                      "T" "@ops" 7 "unmuted" "a" "New" 1 None Demo2.world))
       = [send_request "T"
            [ ("chat_id", JString "@ops"); ("text", JString text);
              ("disable_web_page_preview", JBool true) ]]
       /\ Z.of_nat (String.length text) <= 4000.
Proof.
  assert (Hi : issues Demo2.world !! 7 = Some Demo2.issue) by reflexivity.
  split; [exact Hi|].
  exact (@alert_text_is_bounded Reference.python
           (Demo.env (PostReturns (Demo.response 200 "OK" Reference.body_ok)))
           "T" "@ops" 7 "unmuted" "a" "New" 1 None Demo2.world Demo2.issue Hi).
Defined.

Lemma alert_text_lines_witness :
  outbox (snd (telegram_backend_send_alert (H := Reference.python)
                 (Demo.env (PostReturns (Demo.response 200 "OK" Reference.body_ok)))
                 "T" "@ops" 7 "unmuted" "a" "Unmuted" 1 (Some "manual") Demo2.world))
  = [send_request "T"
       [ ("chat_id", JString "@ops");
         ("text",
          JString ("Unmuted issue" +:+ PyStr.LF
                   +:+ "Issue: ValueError: bad input" +:+ PyStr.LF
                   +:+ "Project: Acme" +:+ PyStr.LF
                   +:+ "URL: https://bugsink.example.org/issues/issue/7/" +:+ PyStr.LF
                   +:+ "Unmute reason: manual"));
         ("disable_web_page_preview", JBool true) ]].
Proof.
  assert (Hi : issues Demo2.world !! 7 = Some Demo2.issue) by reflexivity.
  assert (Hfit :
            Z.of_nat (String.length
                        ("Unmuted issue" +:+ PyStr.LF
                         +:+ "Issue: ValueError: bad input" +:+ PyStr.LF
                         +:+ "Project: Acme" +:+ PyStr.LF
                         +:+ "URL: https://bugsink.example.org/issues/issue/7/" +:+ PyStr.LF
                         +:+ "Unmute reason: manual")) <= 4000)
    by (vm_compute; discriminate).
  exact (@alert_text_lines Reference.python
           (Demo.env (PostReturns (Demo.response 200 "OK" Reference.body_ok)))
           "T" "@ops" 7 "unmuted" "a" "Unmuted" 1 (Some "manual") Demo2.world Demo2.issue
           Hi Hfit).
Defined.

(** ** The facade *)

Section FacadeFacts.

Context `{Python}.
Variable decode_error : string -> string.
Variable subscript_error : json -> string.

Lemma subscript_returns (v : json) (key : string) (x : json) :
  subscript subscript_error v key = Returns x ->
  exists members,
    v = JObject members /\ has_key members key = true /\ x = dict_get members key JNull.
Proof.
  destruct v as [| | | | | |members]; simpl; try discriminate.
  destruct (has_key members key) eqn:Hk; [|discriminate].
  intros Hx. inversion Hx. eauto.
Qed.

(** X18: [send_test_message] hands a call to the queue exactly when the
    stored configuration decodes to an object that has both keys,
    [bot_token] and [chat_id]; the call then carries the two values as
    decoded (the last one of a repeated key), the name of the project, the
    display name and the primary key of the row. *)
Theorem send_test_message_enqueues_iff (self : TelegramBackend) :
  (forall members : list (string * json),
      json_loads (config (service_config self)) = Some (JObject members) ->
      has_key members "bot_token" = true ->
      has_key members "chat_id" = true ->
      send_test_message decode_error subscript_error self
      = Returns (DelayTestMessage (dict_get members "bot_token" JNull)
                   (dict_get members "chat_id" JNull)
                   (backend_project_name self)
                   (display_name (service_config self))
                   (backend_id self)))
  /\ (forall call : delayed,
         send_test_message decode_error subscript_error self = Returns call ->
         exists members : list (string * json),
           json_loads (config (service_config self)) = Some (JObject members)
           /\ has_key members "bot_token" = true
           /\ has_key members "chat_id" = true).
Proof.
  split.
  - intros members Hjson Hb Hc.
    unfold send_test_message, loads_or_raise. rewrite Hjson. simpl.
    rewrite Hb. simpl. rewrite Hc. reflexivity.
  - intros call. unfold send_test_message, loads_or_raise.
    destruct (json_loads (config (service_config self))) as [v|]; [|discriminate].
    simpl.
    destruct (subscript subscript_error v "bot_token") as [b|] eqn:Hb; [|discriminate].
    simpl.
    destruct (subscript subscript_error v "chat_id") as [c|] eqn:Hc; [|discriminate].
    intros _.
    apply subscript_returns in Hb as (members & -> & Hkb & _).
    apply subscript_returns in Hc as (members' & Heq & Hkc & _).
    inversion Heq; subst members'. eauto.
Qed.

(** X19: a configuration that is not JSON makes both methods of the facade
    raise [JSONDecodeError]; an object without [bot_token] makes both raise
    [KeyError] for [bot_token], also when [chat_id] is missing too; an object
    with [bot_token] and without [chat_id] makes both raise [KeyError] for
    [chat_id].  Nothing is handed to the queue in any of these cases. *)
Theorem facade_errors (self : TelegramBackend) (issue_id : Z)
    (state_description alert_article alert_reason : string)
    (kwargs : list (string * json)) :
  let test := send_test_message decode_error subscript_error self in
  let alert :=
    send_alert decode_error subscript_error self issue_id state_description alert_article
      alert_reason kwargs in
  (json_loads (config (service_config self)) = None ->
   exists msg, test = Raises (OtherException "JSONDecodeError" msg)
               /\ alert = Raises (OtherException "JSONDecodeError" msg))
  /\ (forall members : list (string * json),
         json_loads (config (service_config self)) = Some (JObject members) ->
         has_key members "bot_token" = false ->
         test = Raises (OtherException "KeyError" "'bot_token'")
         /\ alert = Raises (OtherException "KeyError" "'bot_token'"))
  /\ (forall members : list (string * json),
         json_loads (config (service_config self)) = Some (JObject members) ->
         has_key members "bot_token" = true ->
         has_key members "chat_id" = false ->
         test = Raises (OtherException "KeyError" "'chat_id'")
         /\ alert = Raises (OtherException "KeyError" "'chat_id'")).
Proof.
  cbv zeta. unfold send_test_message, send_alert, loads_or_raise.
  split; [|split].
  - intros Hjson. rewrite Hjson. simpl. eauto.
  - intros members Hjson Hb. rewrite Hjson. simpl. rewrite Hb. split; reflexivity.
  - intros members Hjson Hb Hc. rewrite Hjson. simpl. rewrite Hb. simpl. rewrite Hc.
    split; reflexivity.
Qed.

(** X20: the two methods of the facade ask the same of the stored
    configuration: [send_alert] raises an exception exactly when
    [send_test_message] raises it, and when both hand over a call the two
    calls carry the same token, chat id and primary key. *)
Theorem facade_methods_agree (self : TelegramBackend) (issue_id : Z)
    (state_description alert_article alert_reason : string)
    (kwargs : list (string * json)) :
  let test := send_test_message decode_error subscript_error self in
  let alert :=
    send_alert decode_error subscript_error self issue_id state_description alert_article
      alert_reason kwargs in
  (forall e : exn, alert = Raises e <-> test = Raises e)
  /\ (forall bot_token chat_id project_name display_name id,
         test = Returns (DelayTestMessage bot_token chat_id project_name display_name id) ->
         alert = Returns (DelayAlert bot_token chat_id issue_id state_description
                            alert_article alert_reason id kwargs)).
Proof.
  cbv zeta. unfold send_test_message, send_alert.
  destruct (loads_or_raise decode_error (config (service_config self))) as [v|e0]; simpl.
  - destruct (subscript subscript_error v "bot_token") as [b|e1]; simpl.
    + destruct (subscript subscript_error v "chat_id") as [c|e2]; simpl.
      * split; [intros e; split; discriminate|].
        intros bt ch pn dn id Heq. inversion Heq. reflexivity.
      * split; [intros e; split; trivial | discriminate].
    + split; [intros e; split; trivial | discriminate].
  - split; [intros e; split; trivial | discriminate].
Qed.

End FacadeFacts.

(** The facade on a row configured with the token T and the chat @ops. *)
Example facade_on_configured_row :
  send_test_message (H := Reference.python) (fun _ => "") (fun _ => "") Demo2.backend
  = Returns (DelayTestMessage (JString "T") (JString "@ops") "Acme" "Prod Alerts" 1).
Proof. vm_compute. reflexivity. Qed.

(** * The code when the database or the decoder fails *)

Section FallibleFacts.

Context `{Python}.
Variable env : Env.
Variable faults : Faults.

Lemma world_eta (w : World) :
  {| configs := configs w; issues := issues w; outbox := outbox w |} = w.
Proof. destruct w; reflexivity. Qed.

(* Shows the row that a chain of attribute assignments builds. *)
Ltac rows :=
  unfold set_is_json, set_response_text, set_status_code, set_error_message,
    set_error_type, set_timestamp.

Lemma fallible_store_failure_miss (id : Z) (e : exn) (response : option Response)
    (w : World) :
  configs w !! id = None ->
  Fallible._store_failure_info env faults id e response w = (Returns tt, w).
Proof.
  intros Hc.
  unfold Fallible._store_failure_info, immediate_atomic, try_except, bind,
    config_objects_get.
  rewrite Hc. reflexivity.
Qed.

(** The failure writer when the decoder handles the body and the database
    takes the row. *)
Lemma fallible_store_failure_hit (id : Z) (e : exn) (response : option Response)
    (w : World) (c : MessagingServiceConfig) :
  configs w !! id = Some c ->
  decoder_handles faults response ->
  save_raises faults id (recorded_failure env e response c) = None ->
  Fallible._store_failure_info env faults id e response w
  = (Returns tt, stored w id (recorded_failure env e response c)).
Proof.
  intros Hc Hdec Hsave.
  unfold Fallible._store_failure_info, immediate_atomic, try_except, bind,
    config_objects_get, Fallible.save, Fallible.loads, lift, ret.
  rewrite Hc. unfold recorded_failure in *.
  destruct response as [r|]; simpl in *.
  - rewrite Hdec. destruct (json_loads (text r)); simpl in *; rows; simpl;
      rewrite Hsave; reflexivity.
  - rows; simpl. rewrite Hsave. reflexivity.
Qed.

(** The failure writer when the database refuses the row: the exception
    leaves the writer and the tables are as before. *)
Lemma fallible_store_failure_refused (id : Z) (e e' : exn) (response : option Response)
    (w : World) (c : MessagingServiceConfig) :
  configs w !! id = Some c ->
  decoder_handles faults response ->
  save_raises faults id (recorded_failure env e response c) = Some e' ->
  e' <> ConfigDoesNotExist ->
  Fallible._store_failure_info env faults id e response w = (Raises e', w).
Proof.
  intros Hc Hdec Hsave Hne.
  unfold Fallible._store_failure_info, immediate_atomic, try_except, bind,
    config_objects_get, Fallible.save, Fallible.loads, lift, ret, raise.
  rewrite Hc. unfold recorded_failure in *.
  destruct response as [r|]; simpl in *.
  - rewrite Hdec. destruct (json_loads (text r)); simpl in *; rows; simpl;
      rewrite Hsave; destruct e'; try congruence; simpl; now rewrite world_eta.
  - rows; simpl. rewrite Hsave.
    destruct e'; try congruence; simpl; now rewrite world_eta.
Qed.


Lemma fallible_handler (id : Z) (e : exn) :
  (if is_RequestException e
   then Fallible._store_failure_info env faults id e (response_of e)
   else Fallible._store_failure_info env faults id e None)
  = Fallible._store_failure_info env faults id e (response_of e).
Proof. destruct e; reflexivity. Qed.

(* Runs the executor up to the answer of the remote end, which [Hpost]
   gives, and names the world in which the POST has gone out. *)
Ltac run_fallible Hpost w' :=
  unfold Fallible._send_telegram_message, try_except, bind, requests_post;
  match type of Hpost with
  | remote _ ?q = _ =>
      match goal with
      | |- context [remote env ?q'] => change q' with q
      end;
      rewrite Hpost;
      match goal with
      | |- context [Build_World (configs ?w) (issues ?w) (outbox ?w ++ [q])] =>
          change (Build_World (configs w) (issues w) (outbox w ++ [q])) with (sent w q);
          generalize (sent w q); intros w'
      end
  end.

(** The POST itself raised. *)
Lemma fallible_send_post_raised (bot_token : string) (payload : list (string * json))
    (id : Z) (w : World) (e : exn) :
  remote env (send_request bot_token payload) = PostRaises e ->
  Fallible._send_telegram_message env faults bot_token payload id w
  = Fallible._store_failure_info env faults id e (response_of e)
      (sent w (send_request bot_token payload)).
Proof.
  intros Hpost. run_fallible Hpost w'.
  rewrite fallible_handler. reflexivity.
Qed.

(** The decoder raised on the body of the answer, whatever its status. *)
Lemma fallible_send_decoder_raised (bot_token : string) (payload : list (string * json))
    (id : Z) (w : World) (r : Response) (e : exn) :
  remote env (send_request bot_token payload) = PostReturns r ->
  decoder_raises faults (text r) = Some e ->
  Fallible._send_telegram_message env faults bot_token payload id w
  = Fallible._store_failure_info env faults id e (response_of e)
      (sent w (send_request bot_token payload)).
Proof.
  intros Hpost Hdec. run_fallible Hpost w'.
  unfold lift, Fallible.loads. rewrite Hdec.
  rewrite fallible_handler. reflexivity.
Qed.

(** The remote end answered with a client or server error status and a body
    the decoder handles. *)
Lemma fallible_send_http_error (bot_token : string) (payload : list (string * json))
    (id : Z) (w : World) (r : Response) :
  remote env (send_request bot_token payload) = PostReturns r ->
  decoder_raises faults (text r) = None ->
  400 <= status_code r < 600 ->
  Fallible._send_telegram_message env faults bot_token payload id w
  = Fallible._store_failure_info env faults id
      (HTTPError (http_error_message r) (Some r)) (Some r)
      (sent w (send_request bot_token payload)).
Proof.
  intros Hpost Hdec Hr. run_fallible Hpost w'.
  unfold lift, Fallible.loads. rewrite Hdec.
  destruct (Z.leb_spec 400 (status_code r)) as [_|?]; [|lia].
  rewrite (raise_for_status_error r Hr). reflexivity.
Qed.

(** What the executor does with an answer outside the error classes whose
    body the decoder handles. *)
Lemma fallible_send_classified (bot_token : string) (payload : list (string * json))
    (id : Z) (w : World) (r : Response) :
  remote env (send_request bot_token payload) = PostReturns r ->
  decoder_raises faults (text r) = None ->
  status_code r < 400 \/ 600 <= status_code r ->
  let w' := sent w (send_request bot_token payload) in
  let success := Fallible._store_success_info faults id w' in
  let written :=
    match fst success with
    | Returns _ => success
    | Raises e => Fallible._store_failure_info env faults id e (response_of e) (snd success)
    end in
  Fallible._send_telegram_message env faults bot_token payload id w
  = match response_json r with
    | JNull => written
    | JObject members =>
        if is_False (dict_get members "ok" JNull) then
          Fallible._store_failure_info env faults id
            (HTTPError (py_str (dict_get members "description"
                                  (JString "Telegram API error"))) (Some r))
            (Some r) w'
        else written
    | v =>
        Fallible._store_failure_info env faults id
          (AttributeError ("'" +:+ type_name v +:+ "' object has no attribute 'get'"))
          None w'
    end.
Proof.
  intros Hpost Hdec Hr w'. subst w'. run_fallible Hpost w'. cbv zeta.
  pose proof (raise_for_status_other r Hr) as Hgate.
  unfold lift, ret, Fallible.loads, response_json. rewrite Hdec.
  destruct (400 <=? status_code r); [rewrite Hgate|]; clear Hgate.
  all: destruct (json_loads (text r)) as [[| | | | | |members]|]; simpl;
         try reflexivity.
  all: try destruct (is_False (dict_get members "ok" JNull)); simpl; try reflexivity.
  all: destruct (Fallible._store_success_info faults id w') as [[[]|e] w''];
         simpl; try reflexivity; now rewrite fallible_handler.
Qed.


End FallibleFacts.

(** ** Without faults the two readings of the code agree *)

Section NoFaults.

Context `{Python}.
Variable env : Env.

Lemma no_faults_store_failure (id : Z) (e : exn) (response : option Response) (w : World) :
  Fallible._store_failure_info env no_faults id e response w
  = _store_failure_info env id e response w.
Proof.
  destruct (configs w !! id) as [c|] eqn:Hc.
  - rewrite (store_failure_hit env id e response w c Hc).
    apply fallible_store_failure_hit; [exact Hc | | reflexivity].
    destruct response; reflexivity.
  - rewrite (store_failure_miss env id e response w Hc).
    apply fallible_store_failure_miss. exact Hc.
Qed.

Lemma no_faults_store_success (id : Z) (w : World) :
  Fallible._store_success_info no_faults id w = _store_success_info id w.
Proof. reflexivity. Qed.

Lemma no_faults_send (bot_token : string) (payload : list (string * json)) (id : Z)
    (w : World) :
  Fallible._send_telegram_message env no_faults bot_token payload id w
  = _send_telegram_message env bot_token payload id w.
Proof.
  destruct (remote env (send_request bot_token payload)) as [r|e] eqn:Hpost.
  - destruct (Z_lt_ge_dec (status_code r) 400) as [Hlt|Hge];
      [|destruct (Z_lt_ge_dec (status_code r) 600) as [Hlt|Hge']].
    + rewrite (fallible_send_classified env no_faults _ _ _ _ _ Hpost eq_refl
                 (or_introl Hlt)).
      rewrite (send_classified env _ _ _ _ _ Hpost (or_introl Hlt)).
      cbv zeta. rewrite no_faults_store_success.
      rewrite store_success_returns.
      destruct (response_json r) as [| | | | | |members];
        try destruct (is_False _); try reflexivity; apply no_faults_store_failure.
    + assert (Hr : 400 <= status_code r < 600) by lia.
      rewrite (fallible_send_http_error env no_faults _ _ _ _ _ Hpost eq_refl Hr).
      rewrite (send_http_error env _ _ _ _ _ Hpost Hr).
      apply no_faults_store_failure.
    + assert (Hr : status_code r < 400 \/ 600 <= status_code r) by lia.
      rewrite (fallible_send_classified env no_faults _ _ _ _ _ Hpost eq_refl Hr).
      rewrite (send_classified env _ _ _ _ _ Hpost Hr).
      cbv zeta. rewrite no_faults_store_success.
      rewrite store_success_returns.
      destruct (response_json r) as [| | | | | |members];
        try destruct (is_False _); try reflexivity; apply no_faults_store_failure.
  - rewrite (fallible_send_post_raised env no_faults _ _ _ _ _ Hpost).
    rewrite (send_post_raised env _ _ _ _ _ Hpost).
    apply no_faults_store_failure.
Qed.

End NoFaults.

(** ** The claims that depend on the two calls *)

Section FallibleClaims.

Context `{Python}.
Variable env : Env.
Variable faults : Faults.


(** C5, as amended: an answer with a 2xx status (200 in the scenario)
    whose decoded body is an object with [ok] set to false is handed to the
    failure writer as an HTTPError with the response; when the database
    takes the row, the failure is recorded: the status code and the first
    2000 characters of the body are kept, the body counts as JSON, the error
    type is HTTPError, and the error message is the [str] of the description
    of the body, so the description itself when it is a string, or
    "Telegram API error" when the body has none. *)
Theorem application_failure_recorded_when_saved (bot_token : string)
    (payload : list (string * json)) (id : Z) (w : World) (c : MessagingServiceConfig)
    (r : Response) (members : list (string * json)) :
  let failure :=
    HTTPError (py_str (dict_get members "description" (JString "Telegram API error")))
      (Some r) in
  configs w !! id = Some c ->
  remote env (send_request bot_token payload) = PostReturns r ->
  200 <= status_code r < 300 ->
  decoder_raises faults (text r) = None ->
  json_loads (text r) = Some (JObject members) ->
  dict_get members "ok" JNull = JBool false ->
  save_raises faults id (recorded_failure env failure (Some r) c) = None ->
  exists c',
    Fallible._send_telegram_message env faults bot_token payload id w
    = (Returns tt, stored (sent w (send_request bot_token payload)) id c')
    /\ last_failure_timestamp c' = Some (now env)
    /\ last_failure_status_code c' = Some (status_code r)
    /\ last_failure_response_text c' = Some (PyStr.slice_to (text r) 2000)
    /\ last_failure_is_json c' = Some true
    /\ last_failure_error_type c' = Some "HTTPError"
    /\ last_failure_error_message c'
       = Some (py_str (dict_get members "description" (JString "Telegram API error")))
    /\ (forall s : string,
           dict_get members "description" JNull = JString s ->
           last_failure_error_message c' = Some s)
    /\ (has_key members "description" = false ->
        last_failure_error_message c' = Some "Telegram API error").
Proof.
  intros failure Hc Hpost Hr Hdec Hjson Hok Hsave.
  assert (Hr' : status_code r < 400 \/ 600 <= status_code r) by lia.
  pose proof (fallible_send_classified env faults bot_token payload id w r Hpost Hdec Hr')
    as Hrun.
  cbv zeta in Hrun. unfold response_json in Hrun. rewrite Hjson, Hok in Hrun.
  simpl in Hrun. fold failure in Hrun.
  rewrite (fallible_store_failure_hit env faults id failure (Some r)
             (sent w (send_request bot_token payload)) c Hc Hdec Hsave) in Hrun.
  eexists. split; [exact Hrun|]. simpl. rewrite Hjson.
  repeat split.
  - intros s Hs. f_equal.
    rewrite (dict_get_present members "description" _ (JString s)) by (congruence || exact Hs).
    apply py_str_JString.
  - intros Hk. f_equal. rewrite dict_get_missing by exact Hk. apply py_str_JString.
Qed.


End FallibleClaims.

(** The scenario of C5 on the database and the decoder of [Demo3]: the
    description "chat not found" is stored. *)
Lemma application_failure_recorded_when_saved_witness :
  let r := Demo.response 200 "OK" (Reference.body_not_ok "chat not found") in
  exists c',
    configs (snd (Fallible._send_telegram_message (H := Demo3.python)
                    (Demo.env (PostReturns r)) Demo3.faults
                    "T" Demo.payload 1 Demo.world)) !! 1 = Some c'
    /\ last_failure_status_code c' = Some 200
    /\ last_failure_is_json c' = Some true
    /\ last_failure_response_text c' = Some (Reference.body_not_ok "chat not found")
    /\ last_failure_error_message c' = Some "chat not found".
Proof.
  cbv zeta.
  assert (Hc : configs Demo.world !! 1 = Some Demo.healthy) by reflexivity.
  assert (Hr : 200 <= status_code
                        (Demo.response 200 "OK" (Reference.body_not_ok "chat not found"))
               < 300) by (simpl; lia).
  assert (Hdec : decoder_raises Demo3.faults
                   (text (Demo.response 200 "OK" (Reference.body_not_ok "chat not found")))
                 = None) by (vm_compute; reflexivity).
  assert (Hjson : json_loads (Python := Demo3.python)
                    (text (Demo.response 200 "OK" (Reference.body_not_ok "chat not found")))
                  = Some (JObject [("ok", JBool false);
                                   ("description", JString "chat not found")]))
    by (vm_compute; reflexivity).
  assert (Hok : dict_get [("ok", JBool false); ("description", JString "chat not found")]
                  "ok" JNull = JBool false) by reflexivity.
  assert (Hsave :
            save_raises Demo3.faults 1
              (recorded_failure (H := Demo3.python)
                 (Demo.env (PostReturns
                              (Demo.response 200 "OK"
                                 (Reference.body_not_ok "chat not found"))))
                 (HTTPError
                    (py_str (Python := Demo3.python)
                       (dict_get [("ok", JBool false);
                                  ("description", JString "chat not found")]
                          "description" (JString "Telegram API error")))
                    (Some (Demo.response 200 "OK" (Reference.body_not_ok "chat not found"))))
                 (Some (Demo.response 200 "OK" (Reference.body_not_ok "chat not found")))
                 Demo.healthy)
            = None) by (vm_compute; reflexivity).
  destruct (@application_failure_recorded_when_saved Demo3.python
              (Demo.env (PostReturns
                           (Demo.response 200 "OK" (Reference.body_not_ok "chat not found"))))
              Demo3.faults "T" Demo.payload 1 Demo.world Demo.healthy
              (Demo.response 200 "OK" (Reference.body_not_ok "chat not found"))
              [("ok", JBool false); ("description", JString "chat not found")]
              Hc eq_refl Hr Hdec Hjson Hok Hsave)
    as (c' & Hrun & _ & Hcode & Htext & Hisjson & _ & _ & Hmsg & _).
  exists c'. rewrite Hrun. simpl. rewrite lookup_insert_eq.
  repeat split;
    first [ assumption | rewrite Htext; vm_compute; reflexivity | apply Hmsg; reflexivity ].
Defined.

(** C5 as stated fails: a 200 whose body has [ok] false and a lone
    surrogate as description is classified as a failure, but the database
    refuses the row; the exception of [config.save()] leaves the handler and
    the task, and nothing is recorded. *)
Lemma application_failure_save_refused :
  let r := Demo.response 200 "OK" Demo3.body_surrogate in
  let run :=
    Fallible._send_telegram_message (H := Demo3.python) (Demo.env (PostReturns r))
      Demo3.faults "T" Demo.payload 1 Demo.world in
  status_code r = 200
  /\ json_loads (Python := Demo3.python) (text r)
     = Some (JObject [("ok", JBool false); ("description", JString Demo3.lone_surrogate)])
  /\ (exists msg, fst run = Raises (OtherException "UnicodeEncodeError" msg))
  /\ configs (snd run) !! 1 = Some Demo.healthy.
Proof.
  cbv zeta. split; [reflexivity|]. split; [vm_compute; reflexivity|].
  split; [eexists; vm_compute; reflexivity | vm_compute; reflexivity].
Qed.


(** The send step on the database and the decoder of [Demo3], for an answer
    they both handle: the run is the success write and returns. *)
Example fallible_send_success :
  fst (Fallible._send_telegram_message (H := Demo3.python)
         (Demo.env (PostReturns (Demo.response 200 "OK" Reference.body_ok)))
         Demo3.faults "T" Demo.payload 1 Demo.broken_world) = Returns tt.
Proof. vm_compute. reflexivity. Qed.

(** ** More on the failing calls *)

Section FallibleMore.

Context `{Python}.
Variable env : Env.
Variable faults : Faults.

(** X21: when the decoder raises something other than [ValueError] on the
    body of an answer, whatever the status of the answer, the run records
    that exception by its class name and text, with the status code, the
    response text and the JSON flag null, provided the exception carries no
    response and the database takes the row. *)
Theorem decoder_exception_is_recorded (bot_token : string)
    (payload : list (string * json)) (id : Z) (w : World) (c : MessagingServiceConfig)
    (r : Response) (e : exn) :
  configs w !! id = Some c ->
  remote env (send_request bot_token payload) = PostReturns r ->
  decoder_raises faults (text r) = Some e ->
  response_of e = None ->
  save_raises faults id (recorded_failure env e None c) = None ->
  exists c',
    Fallible._send_telegram_message env faults bot_token payload id w
    = (Returns tt, stored (sent w (send_request bot_token payload)) id c')
    /\ last_failure_error_type c' = Some (class_name e)
    /\ last_failure_error_message c' = Some (str_of e)
    /\ last_failure_status_code c' = None
    /\ last_failure_response_text c' = None
    /\ last_failure_is_json c' = None.
Proof.
  intros Hc Hpost Hdec Hresp Hsave.
  rewrite (fallible_send_decoder_raised env faults bot_token payload id w r e Hpost Hdec).
  rewrite Hresp.
  rewrite (fallible_store_failure_hit env faults id e None
             (sent w (send_request bot_token payload)) c Hc I Hsave).
  eexists. split; [reflexivity|]. simpl. repeat split.
Qed.

(** X22: when an answer outside the error classes has [ok] false and the
    database refuses the failure row, the exception of [config.save()] is
    caught nowhere: it leaves the send step, the POST has been made and the
    tables are as they were before the run. *)
Theorem refused_failure_row_propagates (bot_token : string)
    (payload : list (string * json)) (id : Z) (w : World) (c : MessagingServiceConfig)
    (r : Response) (members : list (string * json)) (refusal : exn) :
  let failure :=
    HTTPError (py_str (dict_get members "description" (JString "Telegram API error")))
      (Some r) in
  configs w !! id = Some c ->
  remote env (send_request bot_token payload) = PostReturns r ->
  status_code r < 400 ->
  decoder_raises faults (text r) = None ->
  json_loads (text r) = Some (JObject members) ->
  dict_get members "ok" JNull = JBool false ->
  save_raises faults id (recorded_failure env failure (Some r) c) = Some refusal ->
  refusal <> ConfigDoesNotExist ->
  Fallible._send_telegram_message env faults bot_token payload id w
  = (Raises refusal, sent w (send_request bot_token payload)).
Proof.
  intros failure Hc Hpost Hr Hdec Hjson Hok Hsave Hne.
  pose proof (fallible_send_classified env faults bot_token payload id w r Hpost Hdec
                (or_introl Hr)) as Hrun.
  cbv zeta in Hrun. unfold response_json in Hrun. rewrite Hjson, Hok in Hrun.
  simpl in Hrun. fold failure in Hrun. rewrite Hrun.
  apply (fallible_store_failure_refused env faults id failure refusal (Some r)
           (sent w (send_request bot_token payload)) c Hc Hdec Hsave Hne).
Qed.

End FallibleMore.

Lemma decoder_exception_is_recorded_witness :
  let r := Demo.response 500 "Internal Server Error" Demo3.body_nested in
  exists c',
    configs (snd (Fallible._send_telegram_message (H := Demo3.python)
                    (Demo.env (PostReturns r)) Demo3.faults
                    "T" Demo.payload 1 Demo.world)) !! 1 = Some c'
    /\ last_failure_error_type c' = Some "RecursionError"
    /\ last_failure_status_code c' = None.
Proof.
  cbv zeta.
  assert (Hc : configs Demo.world !! 1 = Some Demo.healthy) by reflexivity.
  assert (Hdec : decoder_raises Demo3.faults
                   (text (Demo.response 500 "Internal Server Error" Demo3.body_nested))
                 = Some (OtherException "RecursionError"
                           "maximum recursion depth exceeded while decoding a JSON array from a unicode string"))
    by (vm_compute; reflexivity).
  assert (Hsave :
            save_raises Demo3.faults 1
              (recorded_failure (H := Demo3.python)
                 (Demo.env (PostReturns
                              (Demo.response 500 "Internal Server Error" Demo3.body_nested)))
                 (OtherException "RecursionError"
                    "maximum recursion depth exceeded while decoding a JSON array from a unicode string")
                 None Demo.healthy)
            = None) by (vm_compute; reflexivity).
  destruct (@decoder_exception_is_recorded Demo3.python
              (Demo.env (PostReturns
                           (Demo.response 500 "Internal Server Error" Demo3.body_nested)))
              Demo3.faults "T" Demo.payload 1 Demo.world Demo.healthy
              (Demo.response 500 "Internal Server Error" Demo3.body_nested)
              (OtherException "RecursionError"
                 "maximum recursion depth exceeded while decoding a JSON array from a unicode string")
              Hc eq_refl Hdec eq_refl Hsave)
    as (c' & Hrun & Hty & _ & Hcode & _).
  exists c'. rewrite Hrun. simpl. rewrite lookup_insert_eq.
  repeat split; assumption.
Defined.

Lemma refused_failure_row_propagates_witness :
  let r := Demo.response 200 "OK" Demo3.body_surrogate in
  exists refusal : exn,
    Fallible._send_telegram_message (H := Demo3.python) (Demo.env (PostReturns r))
      Demo3.faults "T" Demo.payload 1 Demo.world
    = (Raises refusal, sent Demo.world (send_request "T" Demo.payload))
    /\ class_name refusal = "UnicodeEncodeError".
Proof.
  cbv zeta.
  assert (Hc : configs Demo.world !! 1 = Some Demo.healthy) by reflexivity.
  assert (Hr : status_code (Demo.response 200 "OK" Demo3.body_surrogate) < 400)
    by (simpl; lia).
  assert (Hdec : decoder_raises Demo3.faults
                   (text (Demo.response 200 "OK" Demo3.body_surrogate)) = None)
    by (vm_compute; reflexivity).
  assert (Hjson : json_loads (Python := Demo3.python)
                    (text (Demo.response 200 "OK" Demo3.body_surrogate))
                  = Some (JObject [("ok", JBool false);
                                   ("description", JString Demo3.lone_surrogate)]))
    by (vm_compute; reflexivity).
  assert (Hok : dict_get [("ok", JBool false);
                          ("description", JString Demo3.lone_surrogate)] "ok" JNull
                = JBool false) by reflexivity.
  assert (Hsave :
            save_raises Demo3.faults 1
              (recorded_failure (H := Demo3.python)
                 (Demo.env (PostReturns (Demo.response 200 "OK" Demo3.body_surrogate)))
                 (HTTPError
                    (py_str (Python := Demo3.python)
                       (dict_get [("ok", JBool false);
                                  ("description", JString Demo3.lone_surrogate)]
                          "description" (JString "Telegram API error")))
                    (Some (Demo.response 200 "OK" Demo3.body_surrogate)))
                 (Some (Demo.response 200 "OK" Demo3.body_surrogate))
                 Demo.healthy)
            = Some (OtherException "UnicodeEncodeError"
                      "'utf-8' codec can't encode character '\ud800' in position 0: surrogates not allowed"))
    by (vm_compute; reflexivity).
  assert (Hne : OtherException "UnicodeEncodeError"
                  "'utf-8' codec can't encode character '\ud800' in position 0: surrogates not allowed"
                <> ConfigDoesNotExist) by discriminate.
  eexists. split.
  - exact (@refused_failure_row_propagates Demo3.python
             (Demo.env (PostReturns (Demo.response 200 "OK" Demo3.body_surrogate)))
             Demo3.faults "T" Demo.payload 1 Demo.world Demo.healthy
             (Demo.response 200 "OK" Demo3.body_surrogate)
             [("ok", JBool false); ("description", JString Demo3.lone_surrogate)]
             _ Hc eq_refl Hr Hdec Hjson Hok Hsave Hne).
  - reflexivity.
Defined.
